(** * gameboard: the BGG download script ([scripts/download.py])

    A shallow embedding of the retry loop [get_data], the validation
    step [inspect_data] and the endpoint drivers, followed by the
    properties of their control flow.

    The network ([requests.Session.get]) and the XML parser
    ([xml.etree.ElementTree.fromstring]) are collaborators outside the
    script; they are interfaces here ([Session], [XMLParser]), with small
    executable instances in [Module Mock] used for the examples.  Every
    observable action of the script (an HTTP GET, a [time.sleep], a file
    write) is appended to a chronological trace.  Calls to [logger] are not
    modelled, except that the arguments of a log call are still evaluated
    where their evaluation can fail. *)

From Stdlib Require Import ZArith List String Ascii Lia.
From Stdlib Require Import Strings.Byte.
From stdpp Require Import base option list strings gmap pretty.

Local Open Scope Z_scope.

Set Warnings "-register-all".

(** ** Python values *)

(** [bytes] objects. *)
Definition bytes : Type := list byte.

(** The literal [b"..."]. *)
Definition b (s : string) : bytes := list_byte_of_string s.

(** [pathlib.Path], as the sequence of its parts; [p / "name"] appends one. *)
Definition Path : Type := list string.

Definition path_div (p : Path) (name : string) : Path := (p ++ [name])%list.

Infix "/:" := path_div (at level 40, left associativity).

(** The exceptions that can travel through the script. *)
Inductive exn : Type :=
| ReadTimeout                         (* requests.exceptions.ReadTimeout *)
| TransportError (what : string)      (* any other exception of session.get *)
| HTTPError (status_code : option Z)  (* requests.exceptions.HTTPError(status) *)
| ValueError (msg : string)
| TypeError (msg : string)
| ZeroDivisionError
| ParseError.                         (* xml.etree.ElementTree.ParseError *)

(** The result of running a piece of the script: a value, an exception
    that propagates, or a loop that was cut off by the fuel of the model. *)
Inductive result (A : Type) : Type :=
| Ok (a : A)
| Raise (e : exn)
| OutOfFuel.

Arguments Ok {A} a.
Arguments Raise {A} e.
Arguments OutOfFuel {A}.

Definition result_bind {A B} (r : result A) (k : A -> result B) : result B :=
  match r with
  | Ok a => k a
  | Raise e => Raise e
  | OutOfFuel => OutOfFuel
  end.

(** ** HTTP responses *)

(** [requests.Response]: the three attributes the script reads.  Header
    fields are keyed by the name the script asks for. *)
Record Response : Type := mkResponse {
  status_code : option Z;
  headers : gmap string string;
  content : option bytes
}.

(** [requests.Response()]: no status, no headers, and a [content] that is
    [None] (the property yields [None] when there is no raw stream). *)
Definition new_Response : Response :=
  {| status_code := None; headers := ∅; content := None |}.

(** [http.HTTPStatus] members used by the script. *)
Definition OK : Z := 200.
Definition ACCEPTED : Z := 202.
Definition TOO_MANY_REQUESTS : Z := 429.

(** [response.status_code == status]. *)
Definition status_eq (r : Response) (status : Z) : bool :=
  match status_code r with
  | Some s => s =? status
  | None => false
  end.

(** What one call of [session.get] does: return a response or raise. *)
Inductive outcome : Type :=
| Returned (r : Response)
| Raised (e : exn).

(** ** Builtins *)

Definition is_space (c : ascii) : bool :=
  let n := nat_of_ascii c in
  ((9 <=? n) && (n <=? 13) || (28 <=? n) && (n <=? 32)
   || (n =? 133) || (n =? 160))%nat.

Definition is_digit (c : ascii) : bool :=
  let n := nat_of_ascii c in ((48 <=? n) && (n <=? 57))%nat.

Definition digit_value (c : ascii) : Z := Z.of_nat (nat_of_ascii c) - 48.

Fixpoint lstrip (s : list ascii) : list ascii :=
  match s with
  | c :: s' => if is_space c then lstrip s' else s
  | [] => []
  end.

Definition strip (s : list ascii) : list ascii :=
  rev (lstrip (rev (lstrip s))).

(** Digits of an integer literal, most significant first; a single
    underscore may separate two digits.  [prev_digit] tells whether the
    previous character was a digit. *)
Fixpoint int_digits (s : list ascii) (acc : Z) (prev_digit : bool) : option Z :=
  match s with
  | [] => if prev_digit then Some acc else None
  | c :: s' =>
      if is_digit c then int_digits s' (10 * acc + digit_value c) true
      else if Ascii.eqb c "_" then
        if prev_digit then int_digits s' acc false else None
      else None
  end.

(** [int(s)] for a [str] of Latin-1 characters: surrounding whitespace is
    dropped, one sign is allowed, the rest is a decimal literal. *)
Definition int_of_str (s : string) : option Z :=
  match strip (list_ascii_of_string s) with
  | "-"%char :: ds => Z.opp <$> int_digits ds 0 false
  | "+"%char :: ds => int_digits ds 0 false
  | ds => int_digits ds 0 false
  end.

Definition py_int (s : string) : result Z :=
  match int_of_str s with
  | Some n => Ok n
  | None => Raise (ValueError ("invalid literal for int() with base 10: " +:+ s))
  end.

(** [a // b] on integers. *)
Definition floordiv (a b0 : Z) : result Z :=
  if b0 =? 0 then Raise ZeroDivisionError else Ok (a / b0).

(** [len(x)] where [x] is a [bytes] object or [None]. *)
Definition py_len (x : option bytes) : result Z :=
  match x with
  | Some d => Ok (Z.of_nat (length d))
  | None => Raise (TypeError "object of type 'NoneType' has no len()")
  end.

Fixpoint range_up (fuel : nat) (i stop step : Z) : list Z :=
  match fuel with
  | O => []
  | S fuel' => if i <? stop then i :: range_up fuel' (i + step) stop step else []
  end.

Fixpoint range_down (fuel : nat) (i stop step : Z) : list Z :=
  match fuel with
  | O => []
  | S fuel' => if stop <? i then i :: range_down fuel' (i + step) stop step else []
  end.

(** [range(start, stop, step)], as the list of the values it yields. *)
Definition py_range (start stop step : Z) : result (list Z) :=
  if step =? 0 then Raise (ValueError "range() arg 3 must not be zero")
  else if 0 <? step then Ok (range_up (Z.to_nat (stop - start)) start stop step)
  else Ok (range_down (Z.to_nat (start - stop)) start stop step).

(** A slice bound, brought into [0 .. len]. *)
Definition slice_index (len i : Z) : nat :=
  Z.to_nat (Z.min len (Z.max 0 (if i <? 0 then i + len else i))).

(** [l[lo:hi]]. *)
Definition py_slice {A} (l : list A) (lo hi : Z) : list A :=
  let len := Z.of_nat (length l) in
  let lo' := slice_index len lo in
  let hi' := slice_index len hi in
  take (hi' - lo')%nat (drop lo' l).

(** [sep.join(parts)]. *)
Fixpoint join (sep : string) (parts : list string) : string :=
  match parts with
  | [] => EmptyString
  | [p] => p
  | p :: rest => p +:+ sep +:+ join sep rest
  end.

(** [str(n)] for an integer. *)
Definition str (n : Z) : string := pretty n.

(** ** Element trees *)

(** [xml.etree.ElementTree.Element]: tag, attributes and children (the
    script never reads text). *)
Inductive Element : Type :=
| Elem (tag : string) (attrib : gmap string string) (children : list Element).

Definition tag (e : Element) : string :=
  match e with Elem t _ _ => t end.

Definition attrib (e : Element) : gmap string string :=
  match e with Elem _ a _ => a end.

Definition children (e : Element) : list Element :=
  match e with Elem _ _ cs => cs end.

(** [elem.get(key)]. *)
Definition Element_get (e : Element) (key : string) : option string :=
  attrib e !! key.

(** The elements strictly below [e], in document order. *)
Fixpoint descendants (e : Element) : list Element :=
  match e with
  | Elem _ _ cs => flat_map (fun c => c :: descendants c) cs
  end.

(** [elem.findall(name)]: the children with that tag. *)
Definition findall_child (e : Element) (name : string) : list Element :=
  filter (fun c => tag c = name) (children e).

(** [elem.findall(".//name[@key]")]: the descendants with that tag that
    carry the attribute. *)
Definition findall_descendant_with (e : Element) (name key : string)
  : list Element :=
  filter (fun c => tag c = name ∧ is_Some (Element_get c key)) (descendants e).

(** ** Collaborators *)

(** An HTTP session over a world of type [W]: [session_get url timeout]. *)
Class Session (W : Type) : Type :=
  session_get : string -> Z -> W -> outcome * W.

(** [ET.fromstring]: a tree, or [None] for [ParseError].  An XML document
    has exactly one root element, so no parser accepts the empty input. *)
Class XMLParser : Type := {
  fromstring : bytes -> option Element;
  fromstring_empty : fromstring [] = None
}.

(** ** The effect monad *)

Inductive event : Type :=
| EvGet (url : string) (timeout : Z)
| EvSleep (seconds : Z)
| EvWrite (file_path : Path) (data : bytes).

Record State (W : Type) : Type := mkState {
  world : W;
  trace : list event
}.

Arguments mkState {W} world trace.
Arguments world {W} s.
Arguments trace {W} s.

Definition M (W A : Type) : Type := State W -> result A * State W.

Definition ret {W A} (a : A) : M W A := fun st => (Ok a, st).

Definition raise {W A} (e : exn) : M W A := fun st => (Raise e, st).

Definition out_of_fuel {W A} : M W A := fun st => (OutOfFuel, st).

Definition bind {W A B} (m : M W A) (k : A -> M W B) : M W B :=
  fun st =>
    match m st with
    | (Ok a, st') => k a st'
    | (Raise e, st') => (Raise e, st')
    | (OutOfFuel, st') => (OutOfFuel, st')
    end.

Definition lift {W A} (r : result A) : M W A := fun st => (r, st).

Definition emit {W} (ev : event) : M W unit :=
  fun st => (Ok tt, mkState (world st) (trace st ++ [ev])).

Declare Scope py_scope.
Delimit Scope py_scope with py.

Notation "x <- m ;; k" := (bind m (fun x => k))
  (at level 100, m at next level, right associativity) : py_scope.
Notation "m ;; k" := (bind m (fun _ => k))
  (at level 100, right associativity) : py_scope.

Local Open Scope py_scope.

(** [for x in xs: acc = body x acc]. *)
Fixpoint for_each {W A S} (xs : list A) (body : A -> S -> M W S) (acc : S)
  : M W S :=
  match xs with
  | [] => ret acc
  | x :: xs' => acc' <- body x acc ;; for_each xs' body acc'
  end.

(** Projections of a trace. *)
Definition gets (tr : list event) : list string :=
  omap (fun ev => match ev with EvGet url _ => Some url | _ => None end) tr.

Definition sleeps (tr : list event) : list Z :=
  omap (fun ev => match ev with EvSleep n => Some n | _ => None end) tr.

Definition writes (tr : list event) : list (Path * bytes) :=
  omap (fun ev => match ev with EvWrite p d => Some (p, d) | _ => None end) tr.

(** ** The script *)

Section Script.

Context {W : Type} {session : Session W} {parser : XMLParser}.

(** [session.get(url, timeout=timeout)]. *)
Definition Session_get (url : string) (timeout : Z) : M W outcome :=
  fun st =>
    let '(o, w) := session_get url timeout (world st) in
    (Ok o, mkState w (trace st ++ [EvGet url timeout])).

(** [time.sleep(seconds)]: a negative length is refused. *)
Definition time_sleep (seconds : Z) : M W unit :=
  if seconds <? 0 then raise (ValueError "sleep length must be non-negative")
  else emit (EvSleep seconds).

(** The [while attempts <= retries] loop of [get_data]; its value is the
    [response] variable when the loop is left. *)
Fixpoint get_data_loop (fuel : nat) (url : string) (timeout retries delay : Z)
    (attempts : Z) (response : Response) : M W Response :=
  match fuel with
  | O => out_of_fuel
  | S fuel' =>
      if attempts <=? retries then
        o <- Session_get url timeout ;;
        match o with
        | Raised ReadTimeout =>
            let attempts := attempts + 1 in
            time_sleep delay ;;
            get_data_loop fuel' url timeout retries delay attempts response
        | Raised e => raise e
        | Returned response =>
            if status_eq response OK then ret response
            else if status_eq response ACCEPTED then
              let attempts := attempts + 1 in
              time_sleep delay ;;
              get_data_loop fuel' url timeout retries delay attempts response
            else if status_eq response TOO_MANY_REQUESTS then
              let attempts := attempts + 1 in
              retry_after <-
                match headers response !! "Retry-After" with
                | Some v => lift (py_int v)
                | None => ret delay
                end ;;
              time_sleep retry_after ;;
              get_data_loop fuel' url timeout retries delay attempts response
            else if negb (status_eq response OK) then
              raise (HTTPError (status_code response))
            else
              get_data_loop fuel' url timeout retries delay attempts response
        end
      else ret response
  end.

(** Every pass of the loop that does not leave it adds one to
    [attempts], so this many passes are enough. *)
Definition get_data_fuel (retries : Z) : nat := S (Z.to_nat (retries + 1)).

Definition get_data (query_path : string) (timeout retries delay : Z)
  : M W bytes :=
  let url := "https://boardgamegeek.com/xmlapi2" +:+ query_path in
  let response := new_Response in
  let attempts := 0 in
  response <-
    get_data_loop (get_data_fuel retries) url timeout retries delay
      attempts response ;;
  (* logger.info("Retrieved %d bytes from %s", len(response.content), url) *)
  _ <- lift (py_len (content response)) ;;
  match content response with
  | Some data => ret data
  | None => raise (TypeError "object of type 'NoneType' has no len()")
  end.

(** The defaults of [get_data]. *)
Definition default_timeout : Z := 3.
Definition default_retries : Z := 10.
Definition default_delay : Z := 5.

Definition get_data_default (query_path : string) : M W bytes :=
  get_data query_path default_timeout default_retries default_delay.

Definition inspect_data (data : bytes) (root_tag : string) : result Element :=
  match fromstring data with
  | None => Raise ParseError
  | Some root =>
      if negb (String.eqb (tag root) root_tag) then
        let msg :=
          "Unexpected root tag: " +:+ tag root +:+ ", expected: " +:+ root_tag in
        Raise (ValueError msg)
      else Ok root
  end.

Definition save_data (data : bytes) (file_path : Path) : M W unit :=
  emit (EvWrite file_path data).

Definition download_user_data (username : string) (download_dir : Path)
  : M W unit :=
  let query_path := "/user?name=" +:+ username +:+ "&buddies=1&guilds=1" in
  let root_tag := "user" in
  let file_path := download_dir /: "user" /: "profile.xml" in
  data <- get_data_default query_path ;;
  _ <- lift (inspect_data data root_tag) ;;
  save_data data file_path.

(** The loop [for item in root.findall(".//item[@objectid]")] of
    [download_collection_data]. *)
Definition collect_item_ids (root : Element) (item_ids : list Z)
  : M W (list Z) :=
  for_each (findall_descendant_with root "item" "objectid")
    (fun item item_ids =>
       match Element_get item "objectid" with
       | None => raise (ValueError "None value found in objectid")
       | Some item_id =>
           n <- lift (py_int item_id) ;;
           ret (item_ids ++ [n])%list
       end)
    item_ids.

Definition collection_query_path (username subtype : string) : string :=
  let collection_query_path :=
    "/collection?username=" +:+ username +:+ "&subtype=" +:+ subtype
      +:+ "&stats=1&version=1" in
  if String.eqb subtype "boardgame" then
    collection_query_path +:+ "&excludesubtype=boardgameexpansion"
  else collection_query_path.

Definition download_collection_data (username : string) (download_dir : Path)
  : M W (list Z) :=
  let item_ids := [] in
  let root_tag := "items" in
  let subtypes := ["boardgame"; "boardgameexpansion"; "boardgameaccessory"] in
  for_each subtypes
    (fun subtype item_ids =>
       let collection_file_path :=
         download_dir /: "collection" /: (subtype +:+ ".xml") in
       data <- get_data_default (collection_query_path username subtype) ;;
       root <- lift (inspect_data data root_tag) ;;
       save_data data collection_file_path ;;
       collect_item_ids root item_ids)
    item_ids.

Definition thing_query_path (batch_ids : list Z) : string :=
  let batch_csv := join "," (map str batch_ids) in
  "/thing?id=" +:+ batch_csv +:+ "&stats=1".

Definition thing_file_path (download_dir : Path) (batch_num : Z) : Path :=
  download_dir /: "thing" /: ("batch_" +:+ str batch_num +:+ ".xml").

Definition download_thing_data (thing_ids : list Z) (download_dir : Path)
    (batch_size : Z) : M W unit :=
  let root_tag := "items" in
  let num_things := Z.of_nat (length thing_ids) in
  num_batches <-
    lift (floordiv (Z.of_nat (length thing_ids) + batch_size - 1) batch_size) ;;
  offsets <- lift (py_range 0 num_things batch_size) ;;
  for_each offsets
    (fun i _ =>
       q <- lift (floordiv i batch_size) ;;
       let batch_num := q + 1 in
       let batch_ids := py_slice thing_ids i (i + batch_size) in
       data <- get_data_default (thing_query_path batch_ids) ;;
       _ <- lift (inspect_data data root_tag) ;;
       save_data data (thing_file_path download_dir batch_num))
    tt.

(** The default of [download_thing_data]. *)
Definition default_batch_size : Z := 20.

Definition plays_query_path (username : string) (page : Z) : string :=
  "/plays?username=" +:+ username +:+ "&page=" +:+ str page.

Definition plays_file_path (download_dir : Path) (page : Z) : Path :=
  download_dir /: "plays" /: ("page_" +:+ str page +:+ ".xml").

(** The [while True] loop of [download_play_data]. *)
Fixpoint download_play_loop (fuel : nat) (username : string)
    (download_dir : Path) (page : Z) : M W unit :=
  match fuel with
  | O => out_of_fuel
  | S fuel' =>
      let root_tag := "plays" in
      let query_path := plays_query_path username page in
      let file_path := plays_file_path download_dir page in
      data <- get_data_default query_path ;;
      root <- lift (inspect_data data root_tag) ;;
      match findall_child root "play" with
      | [] => ret tt
      | _ :: _ =>
          save_data data file_path ;;
          let page := page + 1 in
          download_play_loop fuel' username download_dir page
      end
  end.

Definition download_play_data (fuel : nat) (username : string)
    (download_dir : Path) : M W unit :=
  let page := 1 in
  download_play_loop fuel username download_dir page.

End Script.

(** ** Executable collaborators *)

Module Mock.

(** A scripted transport: the world is the list of outcomes still to
    come, one per call of [session.get]. *)
#[export] Instance scripted : Session (list outcome) :=
  fun _ _ w =>
    match w with
    | o :: w' => (o, w')
    | [] => (Raised (TransportError "no scripted outcome left"), [])
    end.

(** A static server: the world maps each URL to the outcome of a GET. *)
#[export] Instance static : Session (string -> outcome) :=
  fun url _ w => (w url, w).

(** A fixed site: the answers are part of the session and the world
    carries nothing. *)
Definition site (route : string -> outcome) : Session unit :=
  fun url _ w => (route url, w).

(** A response with a body and no headers. *)
Definition body_response (status : Z) (body : bytes) : Response :=
  {| status_code := Some status; headers := ∅; content := Some body |}.

Definition respond (status : Z) (body : bytes) : outcome :=
  Returned (body_response status body).

(** A 429 response with the given [Retry-After] header, if any. *)
Definition too_many_response (retry_after : option string) : Response :=
  {| status_code := Some TOO_MANY_REQUESTS;
     headers := match retry_after with
                | Some v => {[ "Retry-After" := v ]}
                | None => ∅
                end;
     content := Some [] |}.

Definition too_many (retry_after : option string) : outcome :=
  Returned (too_many_response retry_after).

(** Two pages with a play each, then pages without plays. *)
Definition plays_page (page : Z) : bytes :=
  if page <=? 2 then b "<plays><play id='7'/></plays>" else b "<plays></plays>".

(** One document for every batch of things. *)
Definition items_page (batch_ids : list Z) : bytes := b "<items></items>".

Definition start {W} (w : W) : State W := mkState w [].

(** *** A parser for the element-and-attribute fragment of XML

    Documents made of start tags, end tags, empty-element tags, quoted
    attribute values and character data, without references, comments,
    declarations or processing instructions. *)

Definition dquote : ascii := ascii_of_nat 34.

Definition is_xml_space (c : ascii) : bool :=
  let n := nat_of_ascii c in ((n =? 32) || (n =? 9) || (n =? 10) || (n =? 13))%nat.

Definition is_name_start (c : ascii) : bool :=
  let n := nat_of_ascii c in
  ((65 <=? n) && (n <=? 90) || (97 <=? n) && (n <=? 122)
   || (n =? 95) || (n =? 58))%nat.

Definition is_name_char (c : ascii) : bool :=
  let n := nat_of_ascii c in
  (is_name_start c || is_digit c || (n =? 45) || (n =? 46))%nat.

Fixpoint span (p : ascii -> bool) (s : list ascii) : list ascii * list ascii :=
  match s with
  | c :: s' =>
      if p c then let '(l, r) := span p s' in (c :: l, r) else ([], s)
  | [] => ([], [])
  end.

Definition skip_space (s : list ascii) : list ascii := snd (span is_xml_space s).

Definition parse_name (s : list ascii) : option (string * list ascii) :=
  match s with
  | c :: _ =>
      if is_name_start c then
        let '(n, rest) := span is_name_char s in
        Some (string_of_list_ascii n, rest)
      else None
  | [] => None
  end.

Fixpoint parse_value (q : ascii) (s acc : list ascii)
  : option (string * list ascii) :=
  match s with
  | [] => None
  | c :: s' =>
      if Ascii.eqb c q then Some (string_of_list_ascii (rev acc), s')
      else if Ascii.eqb c "<" || Ascii.eqb c "&" then None
      else parse_value q s' (c :: acc)
  end.

Fixpoint parse_attrs (fuel : nat) (s : list ascii) (acc : gmap string string)
  : option (gmap string string * list ascii) :=
  match fuel with
  | O => None
  | S fuel' =>
      let s1 := skip_space s in
      match s1 with
      | ">"%char :: _ | "/"%char :: _ => Some (acc, s1)
      | _ =>
          if (length s1 =? length s)%nat then None
          else
            '(k, s2) ← parse_name s1;
            match skip_space s2 with
            | "="%char :: s3 =>
                match skip_space s3 with
                | q :: s4 =>
                    if Ascii.eqb q dquote || Ascii.eqb q "'" then
                      '(v, s5) ← parse_value q s4 [];
                      match acc !! k with
                      | Some _ => None
                      | None => parse_attrs fuel' s5 (<[k:=v]> acc)
                      end
                    else None
                | [] => None
                end
            | _ => None
            end
      end
  end.

Fixpoint parse_element (fuel : nat) (s : list ascii)
  : option (Element * list ascii) :=
  match fuel with
  | O => None
  | S fuel' =>
      match s with
      | "<"%char :: s1 =>
          '(name, s2) ← parse_name s1;
          '(attrs, s3) ← parse_attrs (S (length s2)) s2 ∅;
          match s3 with
          | "/"%char :: ">"%char :: s4 => Some (Elem name attrs [], s4)
          | ">"%char :: s4 =>
              '(cs, s5) ← parse_content fuel' s4;
              match s5 with
              | "<"%char :: "/"%char :: s6 =>
                  '(name', s7) ← parse_name s6;
                  if String.eqb name name' then
                    match skip_space s7 with
                    | ">"%char :: s8 => Some (Elem name attrs cs, s8)
                    | _ => None
                    end
                  else None
              | _ => None
              end
          | _ => None
          end
      | _ => None
      end
  end
with parse_content (fuel : nat) (s : list ascii)
  : option (list Element * list ascii) :=
  match fuel with
  | O => None
  | S fuel' =>
      match s with
      | "<"%char :: "/"%char :: _ => Some ([], s)
      | "<"%char :: _ =>
          '(e, s1) ← parse_element fuel' s;
          '(es, s2) ← parse_content fuel' s1;
          Some (e :: es, s2)
      | "&"%char :: _ => None
      | _ :: s1 => parse_content fuel' s1
      | [] => None
      end
  end.

Definition parse_document (data : bytes) : option Element :=
  let s := map ascii_of_byte data in
  '(root, rest) ← parse_element (2 * length s + 2) (skip_space s);
  match skip_space rest with
  | [] => Some root
  | _ :: _ => None
  end.

#[export] Instance fragment : XMLParser :=
  {| fromstring := parse_document; fromstring_empty := eq_refl |}.

End Mock.

Import Mock.

(** ** The retry loop of [get_data] *)

(** What one pass of the loop decides once [session.get] is over. *)
Inductive verdict : Type :=
| Stop (response : Response)
| Again (seconds : Z) (response : Response)
| Abort (e : exn).

Definition verdict_of (delay : Z) (response : Response) (o : outcome) : verdict :=
  match o with
  | Raised ReadTimeout => Again delay response
  | Raised e => Abort e
  | Returned r =>
      if status_eq r OK then Stop r
      else if status_eq r ACCEPTED then Again delay r
      else if status_eq r TOO_MANY_REQUESTS then
        match headers r !! "Retry-After" with
        | Some v =>
            match py_int v with
            | Ok n => Again n r
            | Raise e => Abort e
            | OutOfFuel => Abort ParseError
            end
        | None => Again delay r
        end
      else Abort (HTTPError (status_code r))
  end.

(** The state right after a GET. *)
Definition after_get {W} (st : State W) (url : string) (timeout : Z) (w : W)
  : State W :=
  mkState w (trace st ++ [EvGet url timeout]).

(** The state right after a sleep. *)
Definition after_sleep {W} (st : State W) (seconds : Z) : State W :=
  mkState (world st) (trace st ++ [EvSleep seconds]).




(** ** Reference definitions for the statements *)

(** The values of the [objectid] attributes of the [item] elements below
    [root] that have one, in document order. *)
Definition item_objectids (root : Element) : list string :=
  omap (fun e => if decide (tag e = "item") then Element_get e "objectid" else None)
    (descendants root).

(** [int] applied to each string in turn; the first failure is raised. *)
Fixpoint ints_of (vs : list string) : result (list Z) :=
  match vs with
  | [] => Ok []
  | v :: vs' =>
      result_bind (py_int v) (fun n =>
      result_bind (ints_of vs') (fun ns => Ok (n :: ns)))
  end.

(** The prefix of every URL. *)
Definition api : string := "https://boardgamegeek.com/xmlapi2".

(** A transport that answers every GET of [url] with status 200 and
    [body]. *)
Definition serves {W} {session : Session W} (url : string) (body : bytes) : Prop :=
  forall w, exists r w',
    session_get url default_timeout w = (Returned r, w')
    /\ status_code r = Some OK
    /\ content r = Some body.

(** A document with the given root tag. *)
Definition has_root {parser : XMLParser} (root_tag : string) (body : bytes)
    (root : Element) : Prop :=
  fromstring body = Some root /\ tag root = root_tag.

(** A page of plays with at least one [play] child. *)
Definition has_plays {parser : XMLParser} (body : bytes) : Prop :=
  exists root, has_root "plays" body root /\ findall_child root "play" <> [].


Definition plays_url (username : string) (page : Z) : string :=
  api +:+ plays_query_path username page.


(** What the plays driver does for a page that has plays. *)
Definition play_events (username : string) (download_dir : Path)
    (page_body : Z -> bytes) (page : Z) : list event :=
  [EvGet (plays_url username page) default_timeout;
   EvWrite (plays_file_path download_dir page) (page_body page)].


(** ** Example sites *)

(** A site whose third page of plays is the empty one. *)
Definition plays_site : Session unit :=
  site (fun url =>
          if String.eqb url (plays_url "les_" 1) then respond OK (plays_page 1)
          else if String.eqb url (plays_url "les_" 2) then respond OK (plays_page 2)
          else respond OK (plays_page 3)).


(** ** The timestamp and the entry point *)

(** [datetime.datetime]: the fields that [isoformat] prints. *)
Record datetime : Type := mkDatetime {
  year : N;
  month : N;
  day : N;
  hour : N;
  minute : N;
  second : N;
  microsecond : N
}.

(** [datetime.datetime.now(datetime.UTC)]: the clock of the world. *)
Class Clock (W : Type) : Type :=
  datetime_now : W -> datetime.

Fixpoint zeros (k : nat) : string :=
  match k with
  | O => EmptyString
  | S k' => String "0" (zeros k')
  end.

(** ["%0<width>d" % n] for a natural number. *)
Definition zero_pad (width : nat) (n : N) : string :=
  zeros (width - String.length (pretty n)) +:+ pretty n.

(** The date and the time of [t.isoformat()]: the fraction is left out
    when the microseconds are zero. *)
Definition isoformat_local (t : datetime) : string :=
  zero_pad 4 (year t) +:+ "-" +:+ zero_pad 2 (month t) +:+ "-"
    +:+ zero_pad 2 (day t) +:+ "T"
    +:+ zero_pad 2 (hour t) +:+ ":" +:+ zero_pad 2 (minute t) +:+ ":"
    +:+ zero_pad 2 (second t)
    +:+ (if (microsecond t =? 0)%N then EmptyString
         else "." +:+ zero_pad 6 (microsecond t)).

(** [t.isoformat()] for a time in UTC: the offset [+00:00] comes last. *)
Definition isoformat (t : datetime) : string :=
  isoformat_local t +:+ "+00:00".

(** The scan of [str.replace] for a non-empty [old]: [skip] characters of
    the match just found are still to be dropped. *)
Fixpoint replace_go (old new : string) (skip : nat) (s : string) : string :=
  match s with
  | EmptyString => EmptyString
  | String c s' =>
      match skip with
      | S k => replace_go old new k s'
      | O =>
          if String.prefix old s then
            new +:+ replace_go old new (String.length old - 1) s'
          else String c (replace_go old new 0 s')
      end
  end.

(** [new] before every character and at the end. *)
Fixpoint intersperse (new s : string) : string :=
  match s with
  | EmptyString => new
  | String c s' => new +:+ String c (intersperse new s')
  end.

(** [s.replace(old, new)]. *)
Definition str_replace (s old new : string) : string :=
  match old with
  | EmptyString => intersperse new s
  | String _ _ => replace_go old new 0 s
  end.

(** The line feed. *)
Definition newline : string := String (ascii_of_nat 10) EmptyString.

(** [text.encode("utf-8")] for a text of ASCII characters. *)
Definition encode_utf8 (text : string) : bytes := list_byte_of_string text.

(** The text of the timestamp for a given time. *)
Definition timestamp_text (t : datetime) : string :=
  let ts := str_replace (isoformat t) "+00:00" "Z" in
  ts +:+ newline.

Section Main.

Context {W : Type} {session : Session W} {parser : XMLParser} {clock : Clock W}.

Definition write_timestamp_file (download_dir : Path) : M W unit :=
  fun st =>
    let ts_file := download_dir /: "timestamp.txt" in
    let text := timestamp_text (datetime_now (world st)) in
    emit (EvWrite ts_file (encode_utf8 text)) st.

(** [main]; [fuel] bounds the pages of plays. *)
Definition main (fuel : nat) : M W unit :=
  let username := "les_" in
  let download_dir := ["data"] in
  download_user_data username download_dir ;;
  item_ids <- download_collection_data username download_dir ;;
  download_thing_data item_ids download_dir default_batch_size ;;
  download_play_data fuel username download_dir ;;
  write_timestamp_file download_dir.

End Main.

(** ** Invariants of traces *)

(** A computation that only adds events satisfying [P], whatever its
    outcome. *)
Definition adds {W A} (P : event -> Prop) (m : M W A) : Prop :=
  forall st, exists tr,
    trace (snd (m st)) = (trace st ++ tr)%list /\ Forall P tr.

(** The events of one call of [get_data]: GETs of its URL with its
    timeout, and sleeps of a non-negative length. *)
Definition fetch_event (url : string) (timeout : Z) (ev : event) : Prop :=
  match ev with
  | EvGet u t => u = url /\ t = timeout
  | EvSleep n => 0 <= n
  | EvWrite _ _ => False
  end.

(** Not a write. *)
Definition no_write (ev : event) : Prop :=
  match ev with
  | EvWrite _ _ => False
  | _ => True
  end.

(** A write, if it is one, goes to a file directly inside
    [download_dir/sub] and carries data that [inspect_data] accepts for
    [root_tag]. *)
Definition saves_validated {parser : XMLParser} (download_dir : Path)
    (sub root_tag : string) (ev : event) : Prop :=
  match ev with
  | EvWrite p data =>
      (exists name, p = download_dir /: sub /: name)
      /\ (exists root, inspect_data data root_tag = Ok root)
  | _ => True
  end.


(** A time for the examples. *)
Definition sample_time : datetime :=
  {| year := 2000; month := 1; day := 1; hour := 1; minute := 2; second := 3;
     microsecond := 456789 |}.

(** What the collection driver does for one subtype. *)
Definition collection_events (username : string) (download_dir : Path)
    (body : string -> bytes) (subtype : string) : list event :=
  [EvGet (api +:+ collection_query_path username subtype) default_timeout;
   EvWrite (download_dir /: "collection" /: (subtype +:+ ".xml")) (body subtype)].

(** The three subtypes of the collection driver. *)
Definition subtypes : list string :=
  ["boardgame"; "boardgameexpansion"; "boardgameaccessory"].

(** A collection with two games, one expansion and no accessory; one game
    is listed twice. *)
Definition collection_page (subtype : string) : bytes :=
  if String.eqb subtype "boardgame" then
    b "<items><item objectid='13'/><item objectid='822'/><item objectid='13'/></items>"
  else if String.eqb subtype "boardgameexpansion" then
    b "<items><item objectid='926'/></items>"
  else b "<items></items>".

Definition collection_site : Session unit :=
  site (fun url =>
          if String.eqb url (api +:+ collection_query_path "les_" "boardgame")
          then respond OK (collection_page "boardgame")
          else if String.eqb url
                    (api +:+ collection_query_path "les_" "boardgameexpansion")
          then respond OK (collection_page "boardgameexpansion")
          else respond OK (collection_page "boardgameaccessory")).

(** Not a write of the timestamp file. *)
Definition not_timestamp (download_dir : Path) (ev : event) : Prop :=
  forall data, ev <> EvWrite (download_dir /: "timestamp.txt") data.

(** A computation that writes the timestamp file as its last event when it
    returns, and does not write it at all otherwise. *)
Definition stamps_on_success {W} (download_dir : Path) (m : M W unit) : Prop :=
  forall st, exists tr,
    Forall (not_timestamp download_dir) tr
    /\ ((fst (m st) = Ok tt
         /\ exists t,
              trace (snd (m st))
              = (trace st ++ tr
                   ++ [EvWrite (download_dir /: "timestamp.txt")
                         (encode_utf8 (timestamp_text t))])%list)
        \/ (fst (m st) <> Ok tt /\ trace (snd (m st)) = (trace st ++ tr)%list)).

(** A string without the character [+]. *)
Fixpoint no_plus (s : string) : Prop :=
  match s with
  | EmptyString => True
  | String c s' => c <> "+"%char /\ no_plus s'
  end.

(** A site whose second page of plays is answered with a 503. *)
Definition failing_plays_site : Session unit :=
  site (fun url =>
          if String.eqb url (plays_url "les_" 2) then respond 503 (b "busy")
          else respond OK (plays_page 1)).

(** A collection document with an [objectid] that is not a number. *)
Definition bad_collection : Element :=
  Elem "items" ∅
    [Elem "item" {[ "objectid" := "13" ]} [];
     Elem "item" {[ "objectid" := "abc" ]} [];
     Elem "item" {[ "objectid" := "7" ]} []].

(** A clock that always shows the sample time. *)
Definition sample_clock : Clock unit := fun _ => sample_time.

(** A site for a whole run: a profile, the sample collection, one document
    for every batch of things, and two pages of plays. *)
Definition whole_site : Session unit :=
  site (fun url =>
          if String.prefix (api +:+ "/user?") url then respond OK (b "<user/>")
          else if String.prefix (api +:+ "/collection?") url then
            if String.eqb url (api +:+ collection_query_path "les_" "boardgame")
            then respond OK (collection_page "boardgame")
            else if String.eqb url
                      (api +:+ collection_query_path "les_" "boardgameexpansion")
            then respond OK (collection_page "boardgameexpansion")
            else respond OK (collection_page "boardgameaccessory")
          else if String.prefix (api +:+ "/thing?") url then
            respond OK (items_page [])
          else if String.eqb url (plays_url "les_" 1) then respond OK (plays_page 1)
          else if String.eqb url (plays_url "les_" 2) then respond OK (plays_page 2)
          else respond OK (plays_page 3)).
(** * Properties *)

Section GetData.

Context {W : Type} {session : Session W}.

Implicit Types (st : State W) (response r : Response).

Lemma Session_get_run st url timeout o w :
  session_get url timeout (world st) = (o, w) ->
  Session_get url timeout st = (Ok o, after_get st url timeout w).
Proof. intros H. unfold Session_get. rewrite H. reflexivity. Qed.

Lemma get_data_loop_exit fuel url timeout retries delay attempts response st :
  retries < attempts ->
  get_data_loop (S fuel) url timeout retries delay attempts response st
  = (Ok response, st).
Proof.
  intros H. cbn [get_data_loop].
  destruct (Z.leb_spec attempts retries); [lia | reflexivity].
Qed.

Lemma get_data_loop_step fuel url timeout retries delay attempts response st o w :
  attempts <= retries ->
  session_get url timeout (world st) = (o, w) ->
  get_data_loop (S fuel) url timeout retries delay attempts response st
  = match verdict_of delay response o with
    | Stop r => (Ok r, after_get st url timeout w)
    | Abort e => (Raise e, after_get st url timeout w)
    | Again n r =>
        (time_sleep n ;;
         get_data_loop fuel url timeout retries delay (attempts + 1) r)
          (after_get st url timeout w)
    end.
Proof.
  intros Ha Hget. cbn [get_data_loop].
  destruct (Z.leb_spec attempts retries); [| lia].
  unfold bind at 1. rewrite (Session_get_run _ _ _ _ _ Hget).
  destruct o as [r | e]; cbn [verdict_of].
  - destruct (status_eq r OK) eqn:E200; [reflexivity |].
    destruct (status_eq r ACCEPTED); [reflexivity |].
    destruct (status_eq r TOO_MANY_REQUESTS).
    + destruct (headers r !! "Retry-After") as [v |]; [| reflexivity].
      unfold py_int. destruct (int_of_str v); reflexivity.
    + reflexivity.
  - destruct e; reflexivity.
Qed.

Lemma time_sleep_ok st n :
  0 <= n -> time_sleep n st = (Ok tt, after_sleep st n).
Proof.
  intros H. unfold time_sleep.
  destruct (Z.ltb_spec n 0); [lia | reflexivity].
Qed.

Lemma time_sleep_negative st n :
  n < 0 ->
  time_sleep n st = (Raise (ValueError "sleep length must be non-negative"), st).
Proof.
  intros H. unfold time_sleep.
  destruct (Z.ltb_spec n 0); [reflexivity | lia].
Qed.

Lemma gets_app tr1 tr2 : gets (tr1 ++ tr2) = (gets tr1 ++ gets tr2)%list.
Proof. apply omap_app. Qed.

Lemma sleeps_app tr1 tr2 : sleeps (tr1 ++ tr2) = (sleeps tr1 ++ sleeps tr2)%list.
Proof. apply omap_app. Qed.


(** The passes that the loop can still make from [attempts]. *)
Lemma passes_left retries attempts :
  attempts <= retries ->
  Z.to_nat (retries + 1 - attempts) = S (Z.to_nat (retries + 1 - (attempts + 1))).
Proof. intros H. lia. Qed.

(** With enough fuel the loop never runs out of it, and more fuel changes
    nothing. *)
Lemma get_data_loop_fuel url timeout retries delay :
  forall fuel fuel' attempts response st,
    (Z.to_nat (retries + 1 - attempts) < fuel)%nat ->
    (Z.to_nat (retries + 1 - attempts) < fuel')%nat ->
    get_data_loop fuel url timeout retries delay attempts response st
    = get_data_loop fuel' url timeout retries delay attempts response st
    /\ fst (get_data_loop fuel url timeout retries delay attempts response st)
       <> OutOfFuel.
Proof.
  induction fuel as [| fuel IH]; intros fuel' attempts response st H1 H2; [lia |].
  destruct fuel' as [| fuel']; [lia |].
  destruct (Z.le_gt_cases attempts retries) as [Ha | Ha].
  - destruct (session_get url timeout (world st)) as [o w] eqn:Hget.
    rewrite !(get_data_loop_step _ _ _ _ _ _ _ _ _ _ Ha Hget).
    destruct (verdict_of delay response o) as [r | n r | e]; [easy | | easy].
    unfold bind. destruct (Z.lt_ge_cases n 0) as [Hn | Hn].
    + rewrite (time_sleep_negative _ _ Hn). easy.
    + rewrite (time_sleep_ok _ _ Hn).
      rewrite (passes_left _ _ Ha) in H1, H2.
      apply IH; lia.
  - rewrite !get_data_loop_exit by lia. easy.
Qed.

(** What the loop adds to the trace: at most one GET per pass that is
    left, and never more sleeps than GETs. *)
Lemma get_data_loop_trace url timeout retries delay :
  forall fuel attempts response st,
    exists tr,
      trace (snd (get_data_loop fuel url timeout retries delay attempts response st))
      = (trace st ++ tr)%list
      /\ (length (gets tr) <= Z.to_nat (retries + 1 - attempts))%nat
      /\ (length (sleeps tr) <= length (gets tr))%nat.
Proof.
  induction fuel as [| fuel IH]; intros attempts response st.
  { exists []. cbn. rewrite app_nil_r. repeat split; lia. }
  destruct (Z.le_gt_cases attempts retries) as [Ha | Ha].
  - destruct (session_get url timeout (world st)) as [o w] eqn:Hget.
    rewrite (get_data_loop_step _ _ _ _ _ _ _ _ _ _ Ha Hget).
    assert (Hone : exists tr,
               trace (after_get st url timeout w) = (trace st ++ tr)%list
               /\ (length (gets tr) <= Z.to_nat (retries + 1 - attempts))%nat
               /\ (length (sleeps tr) <= length (gets tr))%nat).
    { exists [EvGet url timeout]. cbn. repeat split; lia. }
    destruct (verdict_of delay response o) as [r | n r | e]; [exact Hone | | exact Hone].
    unfold bind. destruct (Z.lt_ge_cases n 0) as [Hn | Hn].
    + rewrite (time_sleep_negative _ _ Hn). exact Hone.
    + rewrite (time_sleep_ok _ _ Hn).
      destruct (IH (attempts + 1) r (after_sleep (after_get st url timeout w) n))
        as (tr & Htr & Hg & Hs).
      exists ([EvGet url timeout; EvSleep n] ++ tr)%list.
      rewrite Htr. cbn [after_sleep after_get trace].
      rewrite gets_app, sleeps_app, !length_app, <- !app_assoc. cbn.
      repeat split; lia.
  - rewrite get_data_loop_exit by lia.
    exists []. cbn. rewrite app_nil_r. repeat split; lia.
Qed.

(** An exception raised inside the loop leaves [get_data] as it is. *)
Lemma get_data_raises_of_loop query_path timeout retries delay st e st' :
  get_data_loop (get_data_fuel retries)
    ("https://boardgamegeek.com/xmlapi2" +:+ query_path) timeout retries delay
    0 new_Response st = (Raise e, st') ->
  get_data query_path timeout retries delay st = (Raise e, st').
Proof. intros H. unfold get_data, bind. rewrite H. reflexivity. Qed.

(** A 200 on the first attempt: no sleep, and the body comes back as it is. *)
Lemma get_data_ok_first query_path timeout retries delay st r w body :
  0 <= retries ->
  session_get ("https://boardgamegeek.com/xmlapi2" +:+ query_path) timeout (world st)
  = (Returned r, w) ->
  status_code r = Some OK ->
  content r = Some body ->
  get_data query_path timeout retries delay st
  = (Ok body,
     after_get st ("https://boardgamegeek.com/xmlapi2" +:+ query_path) timeout w).
Proof.
  intros Hr Hget Hs Hc. unfold get_data, get_data_fuel, bind.
  rewrite (get_data_loop_step _ _ _ _ _ _ _ _ _ _ Hr Hget).
  cbn [verdict_of]. unfold status_eq. rewrite Hs. cbn.
  rewrite Hc. reflexivity.
Qed.

(** C2. When a pass of the retry loop receives a 429 response, the script
    sleeps for the integer value of the [Retry-After] header if the
    response has one, and for the fixed [delay] if it has none, and then
    goes to the next attempt with the counter incremented. *)
Theorem get_data_429_sleeps_retry_after
    fuel url timeout retries delay attempts response st r w :
  attempts <= retries ->
  session_get url timeout (world st) = (Returned r, w) ->
  status_code r = Some TOO_MANY_REQUESTS ->
  (forall v n,
      headers r !! "Retry-After" = Some v ->
      py_int v = Ok n ->
      get_data_loop (S fuel) url timeout retries delay attempts response st
      = (time_sleep n ;;
         get_data_loop fuel url timeout retries delay (attempts + 1) r)
          (after_get st url timeout w))
  /\ (headers r !! "Retry-After" = None ->
      get_data_loop (S fuel) url timeout retries delay attempts response st
      = (time_sleep delay ;;
         get_data_loop fuel url timeout retries delay (attempts + 1) r)
          (after_get st url timeout w)).
Proof.
  intros Ha Hget Hs.
  rewrite (get_data_loop_step _ _ _ _ _ _ _ _ _ _ Ha Hget).
  cbn [verdict_of]. unfold status_eq. rewrite Hs. cbn.
  split.
  - intros v n Hv Hn. rewrite Hv, Hn. reflexivity.
  - intros Hv. rewrite Hv. reflexivity.
Qed.

(** C3. When a pass of the retry loop receives a response whose status is
    not 200, 202 or 429, the script raises [HTTPError] with that status at
    once: the trace gains the GET and nothing else, so there is no sleep
    and no further attempt. *)
Theorem get_data_other_status_raises
    fuel url timeout retries delay attempts response st r w s :
  attempts <= retries ->
  session_get url timeout (world st) = (Returned r, w) ->
  status_code r = Some s ->
  s <> OK -> s <> ACCEPTED -> s <> TOO_MANY_REQUESTS ->
  get_data_loop (S fuel) url timeout retries delay attempts response st
  = (Raise (HTTPError (Some s)), after_get st url timeout w).
Proof.
  intros Ha Hget Hs H200 H202 H429.
  rewrite (get_data_loop_step _ _ _ _ _ _ _ _ _ _ Ha Hget).
  cbn [verdict_of]. unfold status_eq. rewrite Hs.
  destruct (Z.eqb_spec s OK); [contradiction |].
  destruct (Z.eqb_spec s ACCEPTED); [contradiction |].
  destruct (Z.eqb_spec s TOO_MANY_REQUESTS); [contradiction |].
  reflexivity.
Qed.

(** C4 (amended). One counter bounds the retry loop whatever the causes of
    the retries: a call of [get_data] never runs out of fuel, more fuel
    does not change its loop, it makes at most [retries + 1] attempts (the
    first one and up to [retries] retries), and it sleeps at most once per
    attempt. *)
Theorem get_data_attempts_bounded query_path timeout retries delay st :
  fst (get_data query_path timeout retries delay st) <> OutOfFuel
  /\ (forall fuel response,
        (get_data_fuel retries <= fuel)%nat ->
        get_data_loop fuel ("https://boardgamegeek.com/xmlapi2" +:+ query_path)
          timeout retries delay 0 response st
        = get_data_loop (get_data_fuel retries)
            ("https://boardgamegeek.com/xmlapi2" +:+ query_path)
            timeout retries delay 0 response st)
  /\ exists tr,
       trace (snd (get_data query_path timeout retries delay st))
       = (trace st ++ tr)%list
       /\ (length (gets tr) <= Z.to_nat (retries + 1))%nat
       /\ (length (sleeps tr) <= length (gets tr))%nat.
Proof.
  set (url := "https://boardgamegeek.com/xmlapi2" +:+ query_path).
  assert (Hfuel : (Z.to_nat (retries + 1 - 0) < get_data_fuel retries)%nat)
    by (unfold get_data_fuel; lia).
  split; [| split].
  - destruct (get_data_loop_fuel url timeout retries delay _ _ 0 new_Response st
                Hfuel Hfuel) as [_ Hne].
    unfold get_data, bind. fold url.
    destruct (get_data_loop _ url timeout retries delay 0 new_Response st)
      as [[r | e |] st']; cbn in Hne |- *; [| easy | easy].
    unfold lift. destruct (content r); cbn; easy.
  - intros fuel response Hle.
    apply get_data_loop_fuel; unfold get_data_fuel in *; lia.
  - destruct (get_data_loop_trace url timeout retries delay
                (get_data_fuel retries) 0 new_Response st) as (tr & Htr & Hg & Hs).
    exists tr. replace (retries + 1 - 0) with (retries + 1) in Hg by lia.
    split; [| split; assumption].
    unfold get_data, bind. fold url.
    destruct (get_data_loop _ url timeout retries delay 0 new_Response st)
      as [[r | e |] st']; cbn in Htr |- *; try exact Htr.
    unfold lift. destruct (content r); cbn; exact Htr.
Qed.

(** C10. A 429 response whose [Retry-After] header is not an integer
    literal stops the call: [int] raises [ValueError], which nothing
    catches, and the trace gains the GET only, so the script neither
    sleeps nor retries. *)
Theorem get_data_429_retry_after_not_integer
    fuel url timeout retries delay attempts response st r w v :
  attempts <= retries ->
  session_get url timeout (world st) = (Returned r, w) ->
  status_code r = Some TOO_MANY_REQUESTS ->
  headers r !! "Retry-After" = Some v ->
  int_of_str v = None ->
  get_data_loop (S fuel) url timeout retries delay attempts response st
  = (Raise (ValueError ("invalid literal for int() with base 10: " +:+ v)),
     after_get st url timeout w).
Proof.
  intros Ha Hget Hs Hv Hn.
  rewrite (get_data_loop_step _ _ _ _ _ _ _ _ _ _ Ha Hget).
  cbn [verdict_of]. unfold status_eq. rewrite Hs. cbn.
  rewrite Hv. unfold py_int. rewrite Hn. reflexivity.
Qed.

End GetData.

(** *** The retry loop on scripted transports *)



(** C1. With the defaults (ten retries, delay 5), eleven read timeouts in a
    row use up the attempts; [response] is then still the object made by
    [requests.Response()], whose [content] is [None], and the call of
    [len] in the log line raises [TypeError]: the call does not return. *)
Theorem get_data_all_timeouts_raises :
  get_data_default "/user?name=les_&buddies=1&guilds=1"
    (start (replicate 11 (Raised ReadTimeout)))
  = (Raise (TypeError "object of type 'NoneType' has no len()"),
     mkState []
       (concat (replicate 11
          [EvGet "https://boardgamegeek.com/xmlapi2/user?name=les_&buddies=1&guilds=1" 3;
           EvSleep 5]))).
Proof. vm_compute. reflexivity. Qed.

(** When the last attempt did receive a response, its body is returned
    once the attempts are used up. *)
Example get_data_all_queued_returns_last :
  get_data_default "/collection?username=les_"
    (start (replicate 11 (respond ACCEPTED (b "queued"))))
  = (Ok (b "queued"),
     mkState []
       (concat (replicate 11
          [EvGet "https://boardgamegeek.com/xmlapi2/collection?username=les_" 3;
           EvSleep 5]))).
Proof. vm_compute. reflexivity. Qed.

(** C4 (as stated, refuted). With the default of ten retries, eleven
    retryable failures happen in one call before the loop is left: the
    number of failures is not bounded by the retry count. *)
Lemma get_data_retryable_failures_exceed_retries :
  let st := snd (get_data_default "/plays?username=les_&page=1"
                   (start (replicate 11 (Raised ReadTimeout)))) in
  length (sleeps (trace st)) = 11%nat
  /\ length (gets (trace st)) = 11%nat
  /\ ~ (Z.of_nat (length (sleeps (trace st))) <= default_retries).
Proof.
  vm_compute.
  split; [reflexivity | split; [reflexivity | intros H; apply H; reflexivity]].
Qed.

Lemma get_data_429_sleeps_retry_after_witness :
  get_data_loop 2 "u" 3 10 5 0 new_Response
    (start [too_many (Some "7"); respond OK (b "<user/>")])
  = (Ok (body_response OK (b "<user/>")),
     mkState [] [EvGet "u" 3; EvSleep 7; EvGet "u" 3])
  /\ get_data_loop 2 "u" 3 10 5 0 new_Response
       (start [too_many None; respond OK (b "<user/>")])
     = (Ok (body_response OK (b "<user/>")),
        mkState [] [EvGet "u" 3; EvSleep 5; EvGet "u" 3]).
Proof.
  split.
  - rewrite (proj1 (get_data_429_sleeps_retry_after 1 "u" 3 10 5 0 new_Response
                      (start [too_many (Some "7"); respond OK (b "<user/>")])
                      (too_many_response (Some "7")) [respond OK (b "<user/>")]
                      ltac:(lia) eq_refl eq_refl) "7" 7 eq_refl eq_refl).
    vm_compute. reflexivity.
  - rewrite (proj2 (get_data_429_sleeps_retry_after 1 "u" 3 10 5 0 new_Response
                      (start [too_many None; respond OK (b "<user/>")])
                      (too_many_response None) [respond OK (b "<user/>")]
                      ltac:(lia) eq_refl eq_refl) eq_refl).
    vm_compute. reflexivity.
Defined.

Lemma get_data_other_status_raises_witness :
  get_data_loop 11 "u" 3 10 5 0 new_Response
    (start [respond 503 (b "busy"); respond OK (b "<user/>")])
  = (Raise (HTTPError (Some 503)),
     after_get (start [respond 503 (b "busy"); respond OK (b "<user/>")])
       "u" 3 [respond OK (b "<user/>")]).
Proof.
  apply (get_data_other_status_raises 10 "u" 3 10 5 0 new_Response
           (start [respond 503 (b "busy"); respond OK (b "<user/>")])
           (body_response 503 (b "busy")) [respond OK (b "<user/>")] 503);
    [lia | reflexivity | reflexivity | discriminate | discriminate | discriminate].
Defined.

Lemma get_data_429_retry_after_not_integer_witness :
  get_data_loop 11 "u" 3 10 5 0 new_Response
    (start [too_many (Some "Wed, 21 Oct 2015 07:28:00 GMT"); respond OK (b "<user/>")])
  = (Raise (ValueError
       "invalid literal for int() with base 10: Wed, 21 Oct 2015 07:28:00 GMT"),
     mkState [respond OK (b "<user/>")] [EvGet "u" 3]).
Proof.
  apply (get_data_429_retry_after_not_integer 10 "u" 3 10 5 0 new_Response
           (start [too_many (Some "Wed, 21 Oct 2015 07:28:00 GMT");
                   respond OK (b "<user/>")])
           (too_many_response (Some "Wed, 21 Oct 2015 07:28:00 GMT"))
           [respond OK (b "<user/>")] "Wed, 21 Oct 2015 07:28:00 GMT");
    [lia | reflexivity | reflexivity | reflexivity | reflexivity].
Defined.

(** ** Validation *)

Section InspectData.

Context {parser : XMLParser}.

(** C7. For an input that the parser accepts, [inspect_data] returns a
    tree exactly when the tag of the parsed root is the expected one; the
    tree it returns is the parsed root and carries the expected tag; when
    the tags differ it raises the root-tag [ValueError] and returns no
    tree. *)
Theorem inspect_data_root_tag data root_tag parsed :
  fromstring data = Some parsed ->
  ((exists root, inspect_data data root_tag = Ok root) <-> tag parsed = root_tag)
  /\ (forall root,
        inspect_data data root_tag = Ok root ->
        root = parsed /\ tag root = root_tag)
  /\ (tag parsed <> root_tag ->
      inspect_data data root_tag
      = Raise (ValueError ("Unexpected root tag: " +:+ tag parsed
                           +:+ ", expected: " +:+ root_tag))).
Proof.
  intros Hparse. unfold inspect_data. rewrite Hparse.
  destruct (String.eqb_spec (tag parsed) root_tag) as [Heq | Hne]; cbn.
  - split; [| split].
    + split; [intros _; exact Heq | intros _; exists parsed; reflexivity].
    + intros root Hroot. injection Hroot as <-. split; [reflexivity | exact Heq].
    + intros Hne. contradiction.
  - split; [| split].
    + split; [intros [root Hroot]; discriminate Hroot | intros Heq; contradiction].
    + intros root Hroot. discriminate Hroot.
    + intros _. reflexivity.
Qed.


End InspectData.

Lemma inspect_data_root_tag_witness :
  ((exists root, inspect_data (b "<match></match>") "match" = Ok root)
   <-> tag (Elem "match" ∅ []) = "match")
  /\ (forall root,
        inspect_data (b "<match></match>") "match" = Ok root ->
        root = Elem "match" ∅ [] /\ tag root = "match")
  /\ (tag (Elem "match" ∅ []) <> "match" ->
      inspect_data (b "<match></match>") "match"
      = Raise (ValueError ("Unexpected root tag: " +:+ tag (Elem "match" ∅ [])
                           +:+ ", expected: " +:+ "match"))).
Proof.
  apply (inspect_data_root_tag (b "<match></match>") "match" (Elem "match" ∅ [])).
  vm_compute. reflexivity.
Defined.


(** ** The collection driver *)

Section Collection.

Context {W : Type} {session : Session W} {parser : XMLParser}.

Lemma py_int_not_missing v e :
  py_int v = Raise e -> e <> ValueError "None value found in objectid".
Proof.
  unfold py_int. destruct (int_of_str v); intros H; [discriminate H |].
  injection H as <-. cbn. intros Heq. discriminate Heq.
Qed.

Lemma ints_of_not_missing vs e :
  ints_of vs = Raise e -> e <> ValueError "None value found in objectid".
Proof.
  induction vs as [| v vs IH]; cbn; [intros H; discriminate H |].
  destruct (py_int v) as [n | e' |] eqn:Hv; cbn; [| | intros H; discriminate H].
  - destruct (ints_of vs) as [ns | e' |]; cbn; intros H;
      [discriminate H | | discriminate H].
    injection H as <-. apply IH. reflexivity.
  - intros H. injection H as <-. exact (py_int_not_missing _ _ Hv).
Qed.

Lemma collect_loop (l : list Element) (item_ids : list Z) (st : State W) :
  for_each
    (filter (fun c => tag c = "item" ∧ is_Some (Element_get c "objectid")) l)
    (fun item item_ids =>
       match Element_get item "objectid" with
       | None => raise (ValueError "None value found in objectid")
       | Some item_id => n <- lift (py_int item_id) ;; ret (item_ids ++ [n])%list
       end)
    item_ids st
  = (result_bind
       (ints_of (omap (fun e => if decide (tag e = "item")
                                then Element_get e "objectid" else None) l))
       (fun ids => Ok (item_ids ++ ids)%list),
     st).
Proof.
  revert item_ids. induction l as [| c l IH]; intros item_ids.
  { cbn. rewrite app_nil_r. reflexivity. }
  rewrite filter_cons. cbn [omap list_omap].
  destruct (decide (tag c = "item")) as [Ht | Ht].
  - destruct (Element_get c "objectid") as [v |] eqn:Hv.
    + destruct (decide (tag c = "item" ∧ is_Some (Some v))) as [_ | Hn];
        [| exfalso; apply Hn; split; [exact Ht | eexists; reflexivity]].
      cbn [for_each]. unfold bind at 1. rewrite Hv.
      unfold bind at 1, lift. cbn [ints_of].
      destruct (py_int v) as [n | e |]; cbn [result_bind]; [| reflexivity ..].
      unfold ret at 1. rewrite IH.
      destruct (ints_of _) as [ns | e |]; cbn [result_bind]; [| reflexivity ..].
      rewrite <- app_assoc. reflexivity.
    + destruct (decide (tag c = "item" ∧ is_Some (@None string))) as [[_ Hs] | _];
        [destruct Hs as [x Hx]; discriminate Hx |].
      apply IH.
  - destruct (decide (tag c = "item" ∧ is_Some (Element_get c "objectid")))
      as [[Ht' _] | _]; [contradiction |].
    apply IH.
Qed.

(** C9 (amended). The extraction loop of the collection driver yields the
    integer values of the [objectid] attributes of the [item] elements
    that have one, in document order, after the identifiers collected so
    far; an [item] without the attribute is not selected, so it is skipped,
    no placeholder is produced for it, and the missing-attribute
    [ValueError] is never raised. *)
Theorem collect_item_ids_skips_missing (root : Element) (item_ids : list Z)
    (st : State W) :
  collect_item_ids root item_ids st
  = (result_bind (ints_of (item_objectids root))
       (fun ids => Ok (item_ids ++ ids)%list), st)
  /\ fst (collect_item_ids root item_ids st)
     <> Raise (ValueError "None value found in objectid").
Proof.
  assert (Heq : collect_item_ids root item_ids st
                = (result_bind (ints_of (item_objectids root))
                     (fun ids => Ok (item_ids ++ ids)%list), st))
    by apply collect_loop.
  split; [exact Heq |].
  rewrite Heq. cbn [fst].
  destruct (ints_of (item_objectids root)) as [ids | e |] eqn:Hids;
    cbn [result_bind]; [discriminate | | discriminate].
  intros H. injection H as He. exact (ints_of_not_missing _ _ Hids He).
Qed.

End Collection.

(** C9 (as stated, refuted). A collection response whose second [item]
    has no [objectid]: the driver does not fail, it skips that item and
    returns the identifier of the other one for each of the three
    subtypes. *)
Lemma download_collection_data_skips_item :
  fromstring (b "<items><item objectid='13'/><item/></items>")
  = Some (Elem "items" ∅
            [Elem "item" {[ "objectid" := "13" ]} []; Elem "item" ∅ []])
  /\ fst (download_collection_data "les_" ["data"]
            (start (fun _ : string =>
                      respond OK (b "<items><item objectid='13'/><item/></items>"))))
     = Ok [13; 13; 13].
Proof. vm_compute. split; reflexivity. Qed.

(** ** Fetches that succeed at the first attempt *)

Section Served.

Context {W : Type} {session : Session W} {parser : XMLParser}.

Lemma get_data_default_served query_path body (st : State W) :
  serves (api +:+ query_path) body ->
  exists w',
    get_data_default query_path st
    = (Ok body, after_get st (api +:+ query_path) default_timeout w').
Proof.
  intros Hs. destruct (Hs (world st)) as (r & w' & Hget & Hst & Hc).
  exists w'. unfold get_data_default.
  apply (get_data_ok_first query_path _ _ _ st r w' body);
    [unfold default_retries; lia | exact Hget | exact Hst | exact Hc].
Qed.

Lemma inspect_data_has_root root_tag body root :
  has_root root_tag body root -> inspect_data body root_tag = Ok root.
Proof.
  intros [Hp Ht]. unfold inspect_data. rewrite Hp, Ht, String.eqb_refl.
  reflexivity.
Qed.


(** *** The plays driver *)






End Served.


(** ** The thing driver *)





Section Things.

Context {W : Type} {session : Session W} {parser : XMLParser}.







End Things.


(** * Further properties *)

(** ** More on the retry loop *)

Section GetDataMore.

Context {W : Type} {session : Session W}.

Implicit Types (st : State W) (response r : Response).

(** X1. When the first attempt receives a 200, [get_data] returns the
    body of that response as it is; the trace gains that one GET and no
    sleep. *)
Theorem get_data_200_first_attempt query_path timeout retries delay st r w body :
  0 <= retries ->
  session_get (api +:+ query_path) timeout (world st) = (Returned r, w) ->
  status_code r = Some OK ->
  content r = Some body ->
  get_data query_path timeout retries delay st
  = (Ok body, mkState w (trace st ++ [EvGet (api +:+ query_path) timeout])).
Proof.
  intros Hr Hget Hs Hc.
  exact (get_data_ok_first query_path timeout retries delay st r w body Hr Hget Hs Hc).
Qed.

(** X2. A pass that receives a 202 sleeps for [delay] and goes to the next
    attempt, with the counter incremented and the 202 response as the
    current response. *)
Theorem get_data_202_sleeps_delay
    fuel url timeout retries delay attempts response st r w :
  attempts <= retries ->
  session_get url timeout (world st) = (Returned r, w) ->
  status_code r = Some ACCEPTED ->
  get_data_loop (S fuel) url timeout retries delay attempts response st
  = (time_sleep delay ;;
     get_data_loop fuel url timeout retries delay (attempts + 1) r)
      (after_get st url timeout w).
Proof.
  intros Ha Hget Hs.
  rewrite (get_data_loop_step _ _ _ _ _ _ _ _ _ _ Ha Hget).
  cbn [verdict_of]. unfold status_eq. rewrite Hs. reflexivity.
Qed.

(** X3. A pass whose GET raises [ReadTimeout] sleeps for [delay] and goes
    to the next attempt with the counter incremented; the current response
    stays the one of the last attempt that received one. *)
Theorem get_data_read_timeout_keeps_response
    fuel url timeout retries delay attempts response st w :
  attempts <= retries ->
  session_get url timeout (world st) = (Raised ReadTimeout, w) ->
  get_data_loop (S fuel) url timeout retries delay attempts response st
  = (time_sleep delay ;;
     get_data_loop fuel url timeout retries delay (attempts + 1) response)
      (after_get st url timeout w).
Proof.
  intros Ha Hget.
  rewrite (get_data_loop_step _ _ _ _ _ _ _ _ _ _ Ha Hget). reflexivity.
Qed.

(** X4. An exception of [session.get] other than [ReadTimeout] is not
    caught: the pass raises it after the GET, without sleep or retry. *)
Theorem get_data_transport_error_propagates
    fuel url timeout retries delay attempts response st e w :
  attempts <= retries ->
  session_get url timeout (world st) = (Raised e, w) ->
  e <> ReadTimeout ->
  get_data_loop (S fuel) url timeout retries delay attempts response st
  = (Raise e, after_get st url timeout w).
Proof.
  intros Ha Hget He.
  rewrite (get_data_loop_step _ _ _ _ _ _ _ _ _ _ Ha Hget).
  destruct e; first [contradiction | reflexivity].
Qed.

(** X5. With a negative retry count the loop body never runs: [get_data]
    makes no request and raises [TypeError], because the content of the
    fresh response is [None]. *)
Theorem get_data_negative_retries query_path timeout retries delay st :
  retries < 0 ->
  get_data query_path timeout retries delay st
  = (Raise (TypeError "object of type 'NoneType' has no len()"), st).
Proof.
  intros Hr. unfold get_data, get_data_fuel, bind.
  rewrite get_data_loop_exit by lia. reflexivity.
Qed.


End GetDataMore.

Lemma get_data_200_first_attempt_witness :
  get_data "/user?name=les_" 3 10 5
    (start [respond OK (b "<user/>"); respond 503 []])
  = (Ok (b "<user/>"),
     mkState [respond 503 []]
       ([] ++ [EvGet (api +:+ "/user?name=les_") 3])).
Proof.
  apply (get_data_200_first_attempt "/user?name=les_" 3 10 5
           (start [respond OK (b "<user/>"); respond 503 []])
           (body_response OK (b "<user/>")) [respond 503 []] (b "<user/>"));
    [lia | reflexivity | reflexivity | reflexivity].
Defined.

Lemma get_data_202_sleeps_delay_witness :
  get_data_loop 2 "u" 3 10 5 0 new_Response
    (start [respond ACCEPTED (b "queued"); respond OK (b "<items/>")])
  = (Ok (body_response OK (b "<items/>")),
     mkState [] [EvGet "u" 3; EvSleep 5; EvGet "u" 3]).
Proof.
  rewrite (get_data_202_sleeps_delay 1 "u" 3 10 5 0 new_Response
             (start [respond ACCEPTED (b "queued"); respond OK (b "<items/>")])
             (body_response ACCEPTED (b "queued")) [respond OK (b "<items/>")]
             ltac:(lia) eq_refl eq_refl).
  vm_compute. reflexivity.
Defined.

Lemma get_data_read_timeout_keeps_response_witness :
  get_data_loop 1 "u" 3 0 5 0 (body_response ACCEPTED (b "queued"))
    (start [Raised ReadTimeout])
  = (OutOfFuel, mkState [] [EvGet "u" 3; EvSleep 5])
  /\ get_data_loop 2 "u" 3 0 5 0 (body_response ACCEPTED (b "queued"))
       (start [Raised ReadTimeout])
     = (Ok (body_response ACCEPTED (b "queued")),
        mkState [] [EvGet "u" 3; EvSleep 5]).
Proof.
  split.
  - rewrite (get_data_read_timeout_keeps_response 0 "u" 3 0 5 0
               (body_response ACCEPTED (b "queued")) (start [Raised ReadTimeout])
               [] ltac:(lia) eq_refl).
    vm_compute. reflexivity.
  - rewrite (get_data_read_timeout_keeps_response 1 "u" 3 0 5 0
               (body_response ACCEPTED (b "queued")) (start [Raised ReadTimeout])
               [] ltac:(lia) eq_refl).
    vm_compute. reflexivity.
Defined.

Lemma get_data_transport_error_propagates_witness :
  get_data_loop 11 "u" 3 10 5 0 new_Response
    (start [Raised (TransportError "connection refused"); respond OK []])
  = (Raise (TransportError "connection refused"),
     after_get (start [Raised (TransportError "connection refused"); respond OK []])
       "u" 3 [respond OK []]).
Proof.
  apply (get_data_transport_error_propagates 10 "u" 3 10 5 0 new_Response
           (start [Raised (TransportError "connection refused"); respond OK []])
           (TransportError "connection refused") [respond OK []]);
    [lia | reflexivity | discriminate].
Defined.

Lemma get_data_negative_retries_witness :
  get_data "/user?name=les_" 3 (-1) 5 (start [respond OK (b "<user/>")])
  = (Raise (TypeError "object of type 'NoneType' has no len()"),
     start [respond OK (b "<user/>")]).
Proof.
  apply (get_data_negative_retries "/user?name=les_" 3 (-1) 5
           (start [respond OK (b "<user/>")])).
  lia.
Defined.


(** ** Invariants of traces *)

Section Adds.

Context {W : Type}.

Lemma adds_ret {A} (P : event -> Prop) (a : A) : adds (W := W) P (ret a).
Proof. intros st. exists []. cbn. rewrite app_nil_r. split; [reflexivity | constructor]. Qed.

Lemma adds_raise {A} (P : event -> Prop) (e : exn) : adds (W := W) (A := A) P (raise e).
Proof. intros st. exists []. cbn. rewrite app_nil_r. split; [reflexivity | constructor]. Qed.

Lemma adds_out_of_fuel {A} (P : event -> Prop) :
  adds (W := W) (A := A) P out_of_fuel.
Proof. intros st. exists []. cbn. rewrite app_nil_r. split; [reflexivity | constructor]. Qed.

Lemma adds_lift {A} (P : event -> Prop) (r : result A) : adds (W := W) P (lift r).
Proof. intros st. exists []. cbn. rewrite app_nil_r. split; [reflexivity | constructor]. Qed.

Lemma adds_emit (P : event -> Prop) (ev : event) : P ev -> adds (W := W) P (emit ev).
Proof. intros H st. exists [ev]. cbn. split; [reflexivity | repeat constructor; exact H]. Qed.

Lemma adds_bind {A B} (P : event -> Prop) (m : M W A) (k : A -> M W B) :
  adds P m -> (forall a, adds P (k a)) -> adds P (bind m k).
Proof.
  intros Hm Hk st. unfold bind.
  destruct (Hm st) as (tr1 & Htr1 & HP1).
  destruct (m st) as [[a | e |] st1]; cbn [snd] in Htr1.
  - destruct (Hk a st1) as (tr2 & Htr2 & HP2).
    exists (tr1 ++ tr2)%list. rewrite Htr2, Htr1, <- app_assoc.
    split; [reflexivity | apply Forall_app; split; assumption].
  - exists tr1. split; assumption.
  - exists tr1. split; assumption.
Qed.

(** The continuation only matters for the value that is there. *)
Lemma adds_bind_lift {A B} (P : event -> Prop) (r : result A) (k : A -> M W B) :
  (forall a, r = Ok a -> adds P (k a)) -> adds P (bind (lift r) k).
Proof.
  intros Hk st. unfold bind, lift. destruct r as [a | e |].
  - exact (Hk a eq_refl st).
  - exists []. cbn. rewrite app_nil_r. split; [reflexivity | constructor].
  - exists []. cbn. rewrite app_nil_r. split; [reflexivity | constructor].
Qed.

Lemma adds_for_each {A S} (P : event -> Prop) (body : A -> S -> M W S) :
  (forall x acc, adds P (body x acc)) ->
  forall xs acc, adds P (for_each xs body acc).
Proof.
  intros Hbody. induction xs as [| x xs IH]; intros acc; cbn [for_each].
  - apply adds_ret.
  - apply adds_bind; [apply Hbody | intros acc'; apply IH].
Qed.

Lemma adds_weaken {A} (P Q : event -> Prop) (m : M W A) :
  (forall ev, P ev -> Q ev) -> adds P m -> adds Q m.
Proof.
  intros HPQ Hm st. destruct (Hm st) as (tr & Htr & HP).
  exists tr. split; [exact Htr | exact (Forall_impl _ _ _ HP HPQ)].
Qed.

End Adds.

Section GetDataEvents.

Context {W : Type} {session : Session W}.

Lemma adds_Session_get url timeout :
  adds (W := W) (fetch_event url timeout) (Session_get url timeout).
Proof.
  intros st. exists [EvGet url timeout]. unfold Session_get.
  destruct (session_get url timeout (world st)) as [o w]. cbn.
  split; [reflexivity | repeat constructor].
Qed.

Lemma adds_time_sleep url timeout n :
  adds (W := W) (fetch_event url timeout) (time_sleep n).
Proof.
  unfold time_sleep. destruct (Z.ltb_spec n 0) as [Hn | Hn].
  - apply adds_raise.
  - apply adds_emit. exact Hn.
Qed.

Lemma adds_get_data_loop url timeout retries delay :
  forall fuel attempts response,
    adds (W := W) (fetch_event url timeout)
      (get_data_loop fuel url timeout retries delay attempts response).
Proof.
  induction fuel as [| fuel IH]; intros attempts response; cbn [get_data_loop].
  { apply adds_out_of_fuel. }
  destruct (attempts <=? retries); [| apply adds_ret].
  apply adds_bind; [apply adds_Session_get |].
  intros [r | e].
  - destruct (status_eq r OK); [apply adds_ret |].
    destruct (status_eq r ACCEPTED).
    { apply adds_bind; [apply adds_time_sleep | intros _; apply IH]. }
    destruct (status_eq r TOO_MANY_REQUESTS).
    { apply adds_bind.
      - destruct (headers r !! "Retry-After"); [apply adds_lift | apply adds_ret].
      - intros n. apply adds_bind; [apply adds_time_sleep | intros _; apply IH]. }
    cbn. apply adds_raise.
  - destruct e; try apply adds_raise.
    apply adds_bind; [apply adds_time_sleep | intros _; apply IH].
Qed.

Lemma adds_get_data query_path timeout retries delay :
  adds (W := W) (fetch_event (api +:+ query_path) timeout)
    (get_data query_path timeout retries delay).
Proof.
  unfold get_data. apply adds_bind; [apply adds_get_data_loop |].
  intros r. apply adds_bind; [apply adds_lift |].
  intros _. destruct (content r); [apply adds_ret | apply adds_raise].
Qed.

(** X8. Whatever the transport does and however the call ends, the events
    that [get_data] adds to the trace are GETs of its own URL with its own
    timeout and sleeps of a non-negative length; it writes no file. *)
Theorem get_data_events query_path timeout retries delay (st : State W) :
  exists tr,
    trace (snd (get_data query_path timeout retries delay st))
    = (trace st ++ tr)%list
    /\ Forall (fetch_event (api +:+ query_path) timeout) tr.
Proof. exact (adds_get_data query_path timeout retries delay st). Qed.

End GetDataEvents.

(** ** The retry loop on scripted transports, continued *)






(** ** What the drivers write *)

Section DriversMore.

Context {W : Type} {session : Session W} {parser : XMLParser}.

Lemma saves_validated_fetch download_dir sub root_tag url timeout ev :
  fetch_event url timeout ev -> saves_validated download_dir sub root_tag ev.
Proof. destruct ev; cbn; [trivial | trivial | contradiction]. Qed.

Lemma adds_fetch download_dir sub root_tag query_path :
  adds (W := W) (saves_validated download_dir sub root_tag)
    (get_data_default query_path).
Proof.
  apply (adds_weaken (fetch_event (api +:+ query_path) default_timeout)).
  - apply saves_validated_fetch.
  - apply adds_get_data.
Qed.

(** Fetch, validate, save: the common part of the drivers. *)
Lemma adds_fetch_inspect_save {A} download_dir sub root_tag query_path name
    (k : Element -> M W A) :
  (forall root, adds (saves_validated download_dir sub root_tag) (k root)) ->
  adds (W := W) (saves_validated download_dir sub root_tag)
    (data <- get_data_default query_path ;;
     root <- lift (inspect_data data root_tag) ;;
     save_data data (download_dir /: sub /: name) ;;
     k root).
Proof.
  intros Hk. apply adds_bind; [apply adds_fetch |].
  intros data. apply adds_bind_lift. intros root Hroot.
  apply adds_bind; [| intros _; apply Hk].
  apply adds_emit. cbn. split; [exists name | exists root]; auto.
Qed.

Lemma adds_download_user_data username download_dir :
  adds (W := W) (saves_validated download_dir "user" "user")
    (download_user_data username download_dir).
Proof.
  unfold download_user_data.
  apply adds_bind; [apply adds_fetch |].
  intros data. apply adds_bind_lift. intros root Hroot.
  apply adds_emit. cbn. split; [exists "profile.xml" | exists root]; auto.
Qed.

Lemma adds_collect_item_ids (P : event -> Prop) root item_ids :
  adds (W := W) P (collect_item_ids root item_ids).
Proof.
  unfold collect_item_ids. apply adds_for_each. intros item acc.
  destruct (Element_get item "objectid"); [| apply adds_raise].
  apply adds_bind; [apply adds_lift | intros n; apply adds_ret].
Qed.

Lemma adds_download_collection_data username download_dir :
  adds (W := W) (saves_validated download_dir "collection" "items")
    (download_collection_data username download_dir).
Proof.
  unfold download_collection_data. apply adds_for_each. intros subtype item_ids.
  apply (adds_fetch_inspect_save download_dir "collection" "items"
           (collection_query_path username subtype) (subtype +:+ ".xml")
           (fun root => collect_item_ids root item_ids)).
  intros root. apply adds_collect_item_ids.
Qed.

Lemma adds_download_thing_data thing_ids download_dir batch_size :
  adds (W := W) (saves_validated download_dir "thing" "items")
    (download_thing_data thing_ids download_dir batch_size).
Proof.
  unfold download_thing_data.
  apply adds_bind; [apply adds_lift |]. intros _.
  apply adds_bind; [apply adds_lift |]. intros offsets.
  apply adds_for_each. intros i _.
  apply adds_bind; [apply adds_lift |]. intros q.
  apply adds_bind; [apply adds_fetch |].
  intros data. apply adds_bind_lift. intros root Hroot.
  apply adds_emit. cbn. split; [eexists | exists root]; [reflexivity | exact Hroot].
Qed.

Lemma adds_download_play_data fuel username download_dir :
  adds (W := W) (saves_validated download_dir "plays" "plays")
    (download_play_data fuel username download_dir).
Proof.
  unfold download_play_data. generalize 1 as page.
  induction fuel as [| fuel IH]; intros page; cbn [download_play_loop].
  { apply adds_out_of_fuel. }
  apply adds_bind; [apply adds_fetch |].
  intros data. apply adds_bind_lift. intros root Hroot.
  destruct (findall_child root "play"); [apply adds_ret |].
  apply adds_bind; [| intros _; apply IH].
  apply adds_emit. cbn. split; [eexists | exists root]; [reflexivity | exact Hroot].
Qed.

(** X10. Whatever the transport and the parser do, and whether a driver
    returns, raises or is cut off, every file that a driver writes lies
    directly in the driver's own directory ([user], [collection], [thing],
    [plays]) and holds data that [inspect_data] accepts for the driver's
    root tag: a payload that fails validation is never saved. *)
Theorem drivers_save_validated username download_dir thing_ids batch_size fuel :
  adds (W := W) (saves_validated download_dir "user" "user")
    (download_user_data username download_dir)
  /\ adds (W := W) (saves_validated download_dir "collection" "items")
       (download_collection_data username download_dir)
  /\ adds (W := W) (saves_validated download_dir "thing" "items")
       (download_thing_data thing_ids download_dir batch_size)
  /\ adds (W := W) (saves_validated download_dir "plays" "plays")
       (download_play_data fuel username download_dir).
Proof.
  split; [apply adds_download_user_data |].
  split; [apply adds_download_collection_data |].
  split; [apply adds_download_thing_data | apply adds_download_play_data].
Qed.

(** X11. If the transport answers the profile GET with [body], the user
    driver saves [body] to [user/profile.xml] exactly when [inspect_data]
    accepts it for the root tag [user]; otherwise it raises the error of
    [inspect_data] and writes nothing. *)
Theorem download_user_data_saves_valid_profile username download_dir body
    (st : State W) :
  serves (api +:+ "/user?name=" +:+ username +:+ "&buddies=1&guilds=1") body ->
  exists w',
    download_user_data username download_dir st
    = match inspect_data body "user" with
      | Ok _ =>
          (Ok tt,
           mkState w'
             (trace st
              ++ [EvGet (api +:+ "/user?name=" +:+ username +:+ "&buddies=1&guilds=1")
                    default_timeout;
                  EvWrite (download_dir /: "user" /: "profile.xml") body]))
      | Raise e =>
          (Raise e,
           mkState w'
             (trace st
              ++ [EvGet (api +:+ "/user?name=" +:+ username +:+ "&buddies=1&guilds=1")
                    default_timeout]))
      | OutOfFuel =>
          (OutOfFuel,
           mkState w'
             (trace st
              ++ [EvGet (api +:+ "/user?name=" +:+ username +:+ "&buddies=1&guilds=1")
                    default_timeout]))
      end.
Proof.
  intros Hserve.
  destruct (get_data_default_served
              ("/user?name=" +:+ username +:+ "&buddies=1&guilds=1") body st Hserve)
    as [w' Hfetch].
  exists w'. unfold download_user_data, bind at 1. rewrite Hfetch.
  unfold bind, lift. destruct (inspect_data body "user"); try reflexivity.
  unfold save_data, emit, after_get. cbn [world trace].
  rewrite <- app_assoc. reflexivity.
Qed.

(** X13. The thing driver with a batch size of zero raises
    [ZeroDivisionError] before any request; with a negative batch size it
    returns without any request or file. *)
Theorem download_thing_data_degenerate_batch_size thing_ids download_dir
    (st : State W) :
  download_thing_data thing_ids download_dir 0 st = (Raise ZeroDivisionError, st)
  /\ (forall batch_size,
        batch_size < 0 ->
        download_thing_data thing_ids download_dir batch_size st = (Ok tt, st)).
Proof.
  split; [reflexivity |].
  intros batch_size Hneg.
  unfold download_thing_data, bind at 1, lift, floordiv.
  destruct (Z.eqb_spec batch_size 0) as [? | _]; [lia |].
  unfold bind at 1, lift, py_range.
  destruct (Z.eqb_spec batch_size 0) as [? | _]; [lia |].
  destruct (Z.ltb_spec 0 batch_size) as [? | _]; [lia |].
  replace (Z.to_nat (0 - Z.of_nat (length thing_ids))) with 0%nat by lia.
  reflexivity.
Qed.

End DriversMore.

Lemma download_user_data_saves_valid_profile_witness :
  exists w',
    download_user_data (session := site (fun _ => respond OK (b "<user/>")))
      "les_" ["data"] (start tt)
    = match inspect_data (b "<user/>") "user" with
      | Ok _ =>
          (Ok tt,
           mkState w'
             ([] ++ [EvGet (api +:+ "/user?name=" +:+ "les_" +:+ "&buddies=1&guilds=1")
                       default_timeout;
                     EvWrite (["data"] /: "user" /: "profile.xml") (b "<user/>")]))
      | Raise e =>
          (Raise e,
           mkState w'
             ([] ++ [EvGet (api +:+ "/user?name=" +:+ "les_" +:+ "&buddies=1&guilds=1")
                       default_timeout]))
      | OutOfFuel =>
          (OutOfFuel,
           mkState w'
             ([] ++ [EvGet (api +:+ "/user?name=" +:+ "les_" +:+ "&buddies=1&guilds=1")
                       default_timeout]))
      end.
Proof.
  apply (download_user_data_saves_valid_profile
           (session := site (fun _ => respond OK (b "<user/>")))
           "les_" ["data"] (b "<user/>") (start tt)).
  intros w. eexists _, w. split; [reflexivity | split; reflexivity].
Defined.

Lemma download_thing_data_degenerate_batch_size_witness :
  download_thing_data (session := site (fun _ => respond OK (items_page [])))
    [13; 822] ["data"] 0 (start tt)
  = (Raise ZeroDivisionError, start tt)
  /\ download_thing_data (session := site (fun _ => respond OK (items_page [])))
       [13; 822] ["data"] (-20) (start tt)
     = (Ok tt, start tt).
Proof.
  destruct (download_thing_data_degenerate_batch_size
              (session := site (fun _ => respond OK (items_page [])))
              [13; 822] ["data"] (start tt)) as [H0 Hneg].
  split; [exact H0 | apply Hneg; lia].
Defined.

Section CollectionMore.

Context {W : Type} {session : Session W} {parser : XMLParser}.

(** X12. If the transport answers the GET of each of the three subtypes
    with a document whose root is [items] and whose [objectid] values are
    all integers, the collection driver issues the three GETs in the order
    boardgame, boardgameexpansion, boardgameaccessory, saves each body to
    [collection/<subtype>.xml] right after its GET, and returns the
    identifiers of the three documents in that order, duplicates kept. *)
Theorem download_collection_data_collects username download_dir
    (body : string -> bytes) (root : string -> Element) (ids : string -> list Z)
    (st : State W) :
  (forall subtype,
      subtype ∈ subtypes ->
      serves (api +:+ collection_query_path username subtype) (body subtype)
      /\ has_root "items" (body subtype) (root subtype)
      /\ ints_of (item_objectids (root subtype)) = Ok (ids subtype)) ->
  exists w',
    download_collection_data username download_dir st
    = (Ok (ids "boardgame" ++ ids "boardgameexpansion" ++ ids "boardgameaccessory")%list,
       mkState w'
         (trace st
          ++ concat (collection_events username download_dir body <$> subtypes))).
Proof.
  intros Hall.
  assert (Hstep : forall subtype item_ids (st0 : State W),
             subtype ∈ subtypes ->
             exists w1,
               (data <- get_data_default (collection_query_path username subtype) ;;
                root <- lift (inspect_data data "items") ;;
                save_data data (download_dir /: "collection" /: (subtype +:+ ".xml")) ;;
                collect_item_ids root item_ids) st0
               = (Ok (item_ids ++ ids subtype)%list,
                  mkState w1
                    (trace st0
                     ++ collection_events username download_dir body subtype))).
  { intros subtype item_ids st0 Hin.
    destruct (Hall subtype Hin) as (Hserve & Hroot & Hids).
    destruct (get_data_default_served _ _ st0 Hserve) as [w1 Hfetch].
    exists w1. unfold bind at 1. rewrite Hfetch.
    unfold bind at 1, lift. rewrite (inspect_data_has_root _ _ _ Hroot).
    unfold bind at 1, save_data, emit. cbn [world trace after_get].
    unfold collect_item_ids, findall_descendant_with. rewrite collect_loop.
    fold (item_objectids (root subtype)). rewrite Hids. cbn [result_bind].
    unfold collection_events. rewrite <- app_assoc. reflexivity. }
  unfold download_collection_data. cbn [for_each].
  destruct (Hstep "boardgame" [] st ltac:(apply list_elem_of_In; cbn; tauto)) as [w1 H1].
  unfold bind at 1. rewrite H1.
  destruct (Hstep "boardgameexpansion" ([] ++ ids "boardgame")%list
              (mkState w1 (trace st
                 ++ collection_events username download_dir body "boardgame"))
              ltac:(apply list_elem_of_In; cbn; tauto)) as [w2 H2].
  unfold bind at 1. rewrite H2.
  destruct (Hstep "boardgameaccessory"
              (([] ++ ids "boardgame") ++ ids "boardgameexpansion")%list
              (mkState w2 (trace (mkState w1 (trace st
                 ++ collection_events username download_dir body "boardgame"))
                 ++ collection_events username download_dir body "boardgameexpansion"))
              ltac:(apply list_elem_of_In; cbn; tauto)) as [w3 H3].
  unfold bind at 1. rewrite H3.
  exists w3. unfold ret. cbn [trace subtypes fmap list_fmap concat].
  rewrite app_nil_r, <- !app_assoc. reflexivity.
Qed.

(** X14. The plays driver has no bound of its own on the number of pages:
    if the transport answers every page from 1 on with a document that has
    at least one [play] child, then for every amount of fuel the driver is
    cut off by the fuel, having fetched and written one page per unit. *)
Theorem download_play_data_unbounded username download_dir page_body
    (st : State W) :
  (forall k, 1 <= k ->
             serves (plays_url username k) (page_body k)
             /\ has_plays (page_body k)) ->
  forall fuel : nat,
    exists w',
      download_play_data fuel username download_dir st
      = (OutOfFuel,
         mkState w'
           (trace st
            ++ concat (play_events username download_dir page_body
                         <$> seqZ 1 (Z.of_nat fuel)))).
Proof.
  intros Hpages fuel. unfold download_play_data.
  assert (Hgen : forall (fuel : nat) page (st0 : State W),
             1 <= page ->
             exists w',
               download_play_loop fuel username download_dir page st0
               = (OutOfFuel,
                  mkState w'
                    (trace st0
                     ++ concat (play_events username download_dir page_body
                                  <$> seqZ page (Z.of_nat fuel))))).
  { clear fuel st. induction fuel as [| fuel IH]; intros page st0 Hpage.
    - exists (world st0). destruct st0 as [w tr]. cbn. rewrite app_nil_r.
      reflexivity.
    - destruct (Hpages page Hpage) as [Hserve (root & Hroot & Hsome)].
      destruct (get_data_default_served (plays_query_path username page)
                  (page_body page) st0 Hserve) as [w1 Hfetch].
      destruct (IH (page + 1)
                  (mkState w1
                     (trace st0 ++ play_events username download_dir page_body page))
                  ltac:(lia)) as [w2 Hrest].
      exists w2. cbn [download_play_loop]. unfold bind at 1. rewrite Hfetch.
      unfold bind at 1, lift. rewrite (inspect_data_has_root _ _ _ Hroot).
      destruct (findall_child root "play") as [| p ps]; [contradiction |].
      unfold bind at 1, save_data, emit. cbn [world trace after_get].
      rewrite <- app_assoc. change ([EvGet _ _] ++ [EvWrite _ _])%list
        with (play_events username download_dir page_body page).
      rewrite Hrest. cbn [trace].
      rewrite (seqZ_cons page (Z.of_nat (S fuel))) by lia.
      replace (Z.pred (Z.of_nat (S fuel))) with (Z.of_nat fuel) by lia.
      replace (Z.succ page) with (page + 1) by lia.
      cbn [fmap list_fmap concat]. rewrite <- !app_assoc. reflexivity. }
  apply Hgen. lia.
Qed.

End CollectionMore.

Lemma download_collection_data_collects_witness :
  exists w',
    download_collection_data (session := collection_site) "les_" ["data"] (start tt)
    = (Ok ([13; 822; 13] ++ [926] ++ [])%list,
       mkState w'
         ([] ++ concat (collection_events "les_" ["data"] collection_page
                          <$> subtypes))).
Proof.
  apply (download_collection_data_collects (session := collection_site)
           "les_" ["data"] collection_page
           (fun subtype =>
              match fromstring (collection_page subtype) with
              | Some root => root
              | None => Elem "items" ∅ []
              end)
           (fun subtype =>
              if String.eqb subtype "boardgame" then [13; 822; 13]
              else if String.eqb subtype "boardgameexpansion" then [926]
              else [])
           (start tt)).
  intros subtype Hin. apply list_elem_of_In in Hin. cbn in Hin.
  destruct Hin as [<- | [<- | [<- | []]]].
  - split; [intros w; eexists _, w; vm_compute; repeat split |].
    split; [split |]; vm_compute; reflexivity.
  - split; [intros w; eexists _, w; vm_compute; repeat split |].
    split; [split |]; vm_compute; reflexivity.
  - split; [intros w; eexists _, w; vm_compute; repeat split |].
    split; [split |]; vm_compute; reflexivity.
Defined.

Lemma download_play_data_unbounded_witness :
  exists w',
    download_play_data (session := site (fun _ => respond OK (plays_page 1)))
      4 "les_" ["data"] (start tt)
    = (OutOfFuel,
       mkState w'
         ([] ++ concat (play_events "les_" ["data"] (fun _ => plays_page 1)
                          <$> seqZ 1 (Z.of_nat 4)))).
Proof.
  apply (download_play_data_unbounded
           (session := site (fun _ => respond OK (plays_page 1)))
           "les_" ["data"] (fun _ => plays_page 1) (start tt)).
  intros k Hk. split.
  - intros w. eexists _, w. split; [reflexivity | split; reflexivity].
  - eexists. split; [split |]; vm_compute; first [reflexivity | discriminate].
Defined.

(** ** File names and the disk *)

Lemma string_app_nil_l (s : string) : EmptyString +:+ s = s.
Proof. reflexivity. Qed.

Lemma string_app_cons (c : ascii) (s t : string) :
  String c s +:+ t = String c (s +:+ t).
Proof. reflexivity. Qed.

Lemma string_length_app (s t : string) :
  String.length (s +:+ t) = (String.length s + String.length t)%nat.
Proof.
  induction s as [| c s IH]; [reflexivity |].
  rewrite string_app_cons. cbn. rewrite IH. reflexivity.
Qed.

Lemma string_app_inj_r (t : string) :
  forall s1 s2 : string, s1 +:+ t = s2 +:+ t -> s1 = s2.
Proof.
  induction s1 as [| c1 s1 IH]; intros [| c2 s2] H.
  - reflexivity.
  - apply (f_equal String.length) in H.
    rewrite !string_length_app in H. cbn in H. lia.
  - apply (f_equal String.length) in H.
    rewrite !string_length_app in H. cbn in H. lia.
  - rewrite !string_app_cons in H. injection H as -> H.
    f_equal. apply IH. exact H.
Qed.

Lemma numbered_name_inj (prefix suffix : string) (n m : Z) :
  prefix +:+ str n +:+ suffix = prefix +:+ str m +:+ suffix -> n = m.
Proof.
  intros H. apply (inj (String.app prefix)) in H.
  apply string_app_inj_r in H. exact (inj pretty _ _ H).
Qed.

Lemma thing_file_path_inj download_dir n m :
  thing_file_path download_dir n = thing_file_path download_dir m -> n = m.
Proof.
  unfold thing_file_path, path_div. intros H.
  apply app_inj_tail in H as [_ H]. exact (numbered_name_inj _ _ _ _ H).
Qed.

Lemma plays_file_path_inj download_dir n m :
  plays_file_path download_dir n = plays_file_path download_dir m -> n = m.
Proof.
  unfold plays_file_path, path_div. intros H.
  apply app_inj_tail in H as [_ H]. exact (numbered_name_inj _ _ _ _ H).
Qed.

(** X15. Two batches, or two pages, have the same file exactly when they
    have the same number: no batch or page is written over another one. *)
Theorem file_paths_distinct download_dir n m :
  (thing_file_path download_dir n = thing_file_path download_dir m <-> n = m)
  /\ (plays_file_path download_dir n = plays_file_path download_dir m <-> n = m).
Proof.
  split; (split; [| intros ->; reflexivity]).
  - apply thing_file_path_inj.
  - apply plays_file_path_inj.
Qed.



Section Disk.

Context {W : Type} {session : Session W} {parser : XMLParser}.



End Disk.



(** ** The entry point *)

Section MainProperties.

Context {W : Type} {session : Session W} {parser : XMLParser} {clock : Clock W}.

Lemma not_timestamp_saves_validated download_dir sub root_tag ev :
  saves_validated download_dir sub root_tag ev -> not_timestamp download_dir ev.
Proof.
  intros Hev data Heq. subst ev. cbn in Hev. destruct Hev as [[name Hname] _].
  unfold path_div in Hname. apply (f_equal length) in Hname.
  rewrite !length_app in Hname. cbn in Hname. lia.
Qed.

Lemma adds_not_timestamp {A} download_dir sub root_tag (m : M W A) :
  adds (saves_validated download_dir sub root_tag) m ->
  adds (not_timestamp download_dir) m.
Proof. apply adds_weaken. intros ev. apply not_timestamp_saves_validated. Qed.

Lemma stamps_write_timestamp_file download_dir :
  stamps_on_success (W := W) download_dir (write_timestamp_file download_dir).
Proof.
  intros st. exists []. split; [constructor |].
  left. split; [reflexivity |].
  exists (datetime_now (world st)). reflexivity.
Qed.

Lemma stamps_bind {A} download_dir (m : M W A) (k : A -> M W unit) :
  adds (not_timestamp download_dir) m ->
  (forall a, stamps_on_success download_dir (k a)) ->
  stamps_on_success download_dir (bind m k).
Proof.
  intros Hm Hk st. unfold bind.
  destruct (Hm st) as (tr1 & Htr1 & HP1).
  destruct (m st) as [[a | e |] st1]; cbn [snd] in Htr1.
  - destruct (Hk a st1) as (tr2 & HP2 & Hcases).
    exists (tr1 ++ tr2)%list. split; [apply Forall_app; split; assumption |].
    destruct Hcases as [[Hok [t Ht]] | [Hne Ht]].
    + left. split; [exact Hok |]. exists t.
      rewrite Ht, Htr1, <- !app_assoc. reflexivity.
    + right. split; [exact Hne |]. rewrite Ht, Htr1, <- app_assoc. reflexivity.
  - exists tr1. split; [exact HP1 |]. right. split; [discriminate | exact Htr1].
  - exists tr1. split; [exact HP1 |]. right. split; [discriminate | exact Htr1].
Qed.

(** X18. For every transport, parser and clock: [main] writes
    [data/timestamp.txt] exactly when the four drivers have all returned,
    as its last event and with the text of a time of the clock; when a
    driver raises (or the plays are cut off), [main] ends with that outcome
    and the timestamp file is not written at all. *)
Theorem main_stamps_on_success (fuel : nat) (st : State W) :
  exists tr,
    Forall (not_timestamp ["data"]) tr
    /\ ((fst (main fuel st) = Ok tt
         /\ exists t,
              trace (snd (main fuel st))
              = (trace st ++ tr
                   ++ [EvWrite ["data"; "timestamp.txt"]
                         (encode_utf8 (timestamp_text t))])%list)
        \/ (fst (main fuel st) <> Ok tt
            /\ trace (snd (main fuel st)) = (trace st ++ tr)%list)).
Proof.
  revert st. change (stamps_on_success ["data"] (main fuel)).
  unfold main.
  apply stamps_bind.
  { apply (adds_not_timestamp _ "user" "user"), adds_download_user_data. }
  intros _. apply stamps_bind.
  { apply (adds_not_timestamp _ "collection" "items"),
      adds_download_collection_data. }
  intros item_ids. apply stamps_bind.
  { apply (adds_not_timestamp _ "thing" "items"), adds_download_thing_data. }
  intros _. apply stamps_bind.
  { apply (adds_not_timestamp _ "plays" "plays"), adds_download_play_data. }
  intros _. apply stamps_write_timestamp_file.
Qed.

End MainProperties.

(** ** The text of the timestamp *)

Lemma no_plus_app (s t : string) : no_plus s -> no_plus t -> no_plus (s +:+ t).
Proof.
  intros Hs Ht. induction s as [| c s IH]; [exact Ht |].
  rewrite string_app_cons. destruct Hs as [Hc Hs]. split; [exact Hc | exact (IH Hs)].
Qed.

Lemma no_plus_pretty_N_go (x : N) :
  forall s, no_plus s -> no_plus (pretty_N_go x s).
Proof.
  induction (N.lt_wf_0 x) as [x _ IH]. intros s Hs.
  destruct (N.eq_dec x 0%N) as [-> | Hx].
  - rewrite pretty_N_go_0. exact Hs.
  - rewrite pretty_N_go_step by lia. apply IH.
    + apply N.div_lt; lia.
    + split; [| exact Hs].
      unfold pretty_N_char. repeat case_match; discriminate.
Qed.

Lemma no_plus_pretty (n : N) : no_plus (pretty n).
Proof.
  unfold pretty, pretty_N. destruct (decide (n = 0%N)).
  - cbn. split; [discriminate | exact I].
  - apply no_plus_pretty_N_go. exact I.
Qed.

Lemma no_plus_zeros (k : nat) : no_plus (zeros k).
Proof. induction k as [| k IH]; [exact I |]. split; [discriminate | exact IH]. Qed.

Lemma no_plus_zero_pad (width : nat) (n : N) : no_plus (zero_pad width n).
Proof. apply no_plus_app; [apply no_plus_zeros | apply no_plus_pretty]. Qed.

Lemma no_plus_isoformat_local (t : datetime) : no_plus (isoformat_local t).
Proof.
  unfold isoformat_local.
  repeat (apply no_plus_app;
          [first [apply no_plus_zero_pad | (split; [discriminate | exact I])] |]).
  destruct (microsecond t =? 0)%N; [exact I |].
  apply no_plus_app; [split; [discriminate | exact I] | apply no_plus_zero_pad].
Qed.

Lemma replace_offset (s : string) :
  no_plus s -> str_replace (s +:+ "+00:00") "+00:00" "Z" = s +:+ "Z".
Proof.
  unfold str_replace. induction s as [| c s IH]; intros Hs.
  - vm_compute. reflexivity.
  - destruct Hs as [Hc Hs]. rewrite !string_app_cons.
    cbn [replace_go String.prefix].
    destruct (ascii_dec "+" c) as [Heq | _]; [congruence |].
    rewrite (IH Hs). reflexivity.
Qed.

(** X19. The text written to the timestamp file is the date and time of
    [isoformat] followed by [Z] and a line feed: the offset [+00:00] is
    replaced, and nothing else is. *)
Theorem timestamp_text_format (t : datetime) :
  timestamp_text t = isoformat_local t +:+ "Z" +:+ newline.
Proof.
  unfold timestamp_text, isoformat.
  rewrite (replace_offset _ (no_plus_isoformat_local t)).
  induction (isoformat_local t) as [| c s IH]; [reflexivity |].
  rewrite !string_app_cons, IH. reflexivity.
Qed.

(** ** Failures in the drivers *)

Section DriverFailures.

Context {W : Type} {session : Session W} {parser : XMLParser}.

Lemma ints_of_app_fail (vs1 : list string) (ns : list Z) (v : string)
    (vs2 : list string) :
  ints_of vs1 = Ok ns ->
  int_of_str v = None ->
  ints_of (vs1 ++ v :: vs2)
  = Raise (ValueError ("invalid literal for int() with base 10: " +:+ v)).
Proof.
  revert ns. induction vs1 as [| v1 vs1 IH]; intros ns Hok Hv.
  - cbn [app ints_of]. unfold py_int. rewrite Hv. reflexivity.
  - cbn [app ints_of] in *.
    destruct (py_int v1) as [n1 | e |]; cbn [result_bind] in *;
      [| discriminate Hok | discriminate Hok].
    destruct (ints_of vs1) as [ns1 | e |] eqn:Hrest; cbn [result_bind] in Hok;
      [| discriminate Hok | discriminate Hok].
    rewrite (IH ns1 eq_refl Hv). reflexivity.
Qed.

(** X20. If the [objectid] values of a collection document are integers
    up to one that [int] rejects, the extraction loop raises the
    [ValueError] of [int] for that value, whatever comes after it, and
    returns no identifier list. *)
Theorem collect_item_ids_invalid_objectid (root : Element) (item_ids : list Z)
    (st : State W) (vs1 : list string) (ns : list Z) (v : string)
    (vs2 : list string) :
  item_objectids root = (vs1 ++ v :: vs2)%list ->
  ints_of vs1 = Ok ns ->
  int_of_str v = None ->
  collect_item_ids root item_ids st
  = (Raise (ValueError ("invalid literal for int() with base 10: " +:+ v)), st).
Proof.
  intros Hvs Hok Hv.
  unfold collect_item_ids, findall_descendant_with. rewrite collect_loop.
  fold (item_objectids root). rewrite Hvs, (ints_of_app_fail _ _ _ _ Hok Hv).
  reflexivity.
Qed.

(** The pages with plays that come first. *)
Lemma download_play_loop_prefix username download_dir page_body :
  forall (m fuel : nat) (page : Z) (st : State W),
    (forall k, page <= k < page + Z.of_nat m ->
               serves (plays_url username k) (page_body k)
               /\ has_plays (page_body k)) ->
    exists w',
      download_play_loop (m + fuel) username download_dir page st
      = download_play_loop fuel username download_dir (page + Z.of_nat m)
          (mkState w'
             (trace st
              ++ concat (play_events username download_dir page_body
                           <$> seqZ page (Z.of_nat m)))).
Proof.
  induction m as [| m IH]; intros fuel page st Hpages.
  - exists (world st). destruct st as [w tr]. cbn [Nat.add].
    replace (page + Z.of_nat 0) with page by lia.
    cbn. rewrite app_nil_r. reflexivity.
  - destruct (Hpages page ltac:(lia)) as [Hserve (root & Hroot & Hsome)].
    destruct (get_data_default_served (plays_query_path username page)
                (page_body page) st Hserve) as [w1 Hfetch].
    destruct (IH fuel (page + 1)
                (mkState w1
                   (trace st ++ play_events username download_dir page_body page)))
      as [w2 Hrest].
    { intros k Hk. apply Hpages. lia. }
    exists w2. cbn [Nat.add download_play_loop]. unfold bind at 1. rewrite Hfetch.
    unfold bind at 1, lift. rewrite (inspect_data_has_root _ _ _ Hroot).
    destruct (findall_child root "play") as [| p ps]; [contradiction |].
    unfold bind at 1, save_data, emit. cbn [world trace after_get].
    rewrite <- app_assoc. change ([EvGet _ _] ++ [EvWrite _ _])%list
      with (play_events username download_dir page_body page).
    rewrite Hrest. cbn [trace].
    rewrite (seqZ_cons page (Z.of_nat (S m))) by lia.
    replace (Z.pred (Z.of_nat (S m))) with (Z.of_nat m) by lia.
    replace (Z.succ page) with (page + 1) by lia.
    replace (page + 1 + Z.of_nat m) with (page + Z.of_nat (S m)) by lia.
    cbn [fmap list_fmap concat]. rewrite <- !app_assoc. reflexivity.
Qed.

(** X21. If pages 1 to m have plays and the GET of page m+1 is answered
    with a status other than 200, 202 and 429, the plays driver raises
    [HTTPError] with that status; the files of pages 1 to m have been
    written by then and stay, and nothing is requested after the failed
    GET. *)
Theorem download_play_data_http_error (m fuel : nat) (username : string)
    (download_dir : Path) (page_body : Z -> bytes) (s : Z) (st : State W) :
  (m < fuel)%nat ->
  (forall k, 1 <= k <= Z.of_nat m ->
             serves (plays_url username k) (page_body k)
             /\ has_plays (page_body k)) ->
  (forall w, exists r w',
      session_get (plays_url username (Z.of_nat m + 1)) default_timeout w
      = (Returned r, w')
      /\ status_code r = Some s) ->
  s <> OK -> s <> ACCEPTED -> s <> TOO_MANY_REQUESTS ->
  exists w',
    download_play_data fuel username download_dir st
    = (Raise (HTTPError (Some s)),
       mkState w'
         (trace st
          ++ concat (play_events username download_dir page_body
                       <$> seqZ 1 (Z.of_nat m))
          ++ [EvGet (plays_url username (Z.of_nat m + 1)) default_timeout])).
Proof.
  intros Hfuel Hpages Hfail H200 H202 H429.
  assert (Hsplit : exists rest : nat, fuel = (m + S rest)%nat)
    by (exists (fuel - m - 1)%nat; lia).
  destruct Hsplit as [rest ->].
  destruct (download_play_loop_prefix username download_dir page_body
              m (S rest) 1 st) as [w1 Hprefix].
  { intros k Hk. apply Hpages. lia. }
  unfold download_play_data. rewrite Hprefix.
  set (st1 := mkState w1 _).
  destruct (Hfail (world st1)) as (r & w2 & Hget & Hs).
  exists w2. cbn [download_play_loop]. unfold bind at 1.
  unfold get_data_default, get_data, bind at 1, get_data_fuel.
  replace (1 + Z.of_nat m) with (Z.of_nat m + 1) by lia.
  fold api. fold (plays_url username (Z.of_nat m + 1)).
  assert (H0 : 0 <= default_retries) by (unfold default_retries; lia).
  rewrite (get_data_loop_step _ _ _ default_retries _ 0 _ _ _ _ H0 Hget).
  cbn [verdict_of]. unfold status_eq. rewrite Hs.
  destruct (Z.eqb_spec s OK); [contradiction |].
  destruct (Z.eqb_spec s ACCEPTED); [contradiction |].
  destruct (Z.eqb_spec s TOO_MANY_REQUESTS); [contradiction |].
  unfold st1, after_get. cbn [trace world]. rewrite <- app_assoc. reflexivity.
Qed.

End DriverFailures.

Lemma collect_item_ids_invalid_objectid_witness :
  collect_item_ids (W := unit) bad_collection [926] (start tt)
  = (Raise (ValueError ("invalid literal for int() with base 10: " +:+ "abc")),
     start tt).
Proof.
  apply (collect_item_ids_invalid_objectid (W := unit) bad_collection [926]
           (start tt) ["13"] [13] "abc" ["7"]);
    vm_compute; reflexivity.
Defined.

Lemma download_play_data_http_error_witness :
  exists w',
    download_play_data (session := failing_plays_site) 2 "les_" ["data"] (start tt)
    = (Raise (HTTPError (Some 503)),
       mkState w'
         ([] ++ concat (play_events "les_" ["data"] plays_page
                          <$> seqZ 1 (Z.of_nat 1))
             ++ [EvGet (plays_url "les_" (Z.of_nat 1 + 1)) default_timeout])).
Proof.
  apply (download_play_data_http_error (session := failing_plays_site)
           1 2 "les_" ["data"] plays_page 503 (start tt)).
  - lia.
  - intros k Hk. assert (k = 1) as -> by lia. split.
    + intros w. eexists _, w. vm_compute. repeat split.
    + eexists. split; [split |]; vm_compute; first [reflexivity | discriminate].
  - intros w. eexists _, w. vm_compute. split; reflexivity.
  - discriminate.
  - discriminate.
  - discriminate.
Defined.
(** ** Examples *)

(** The four cases of [tests/test_download.py]. *)
Example test_inspect_data_match :
  inspect_data (b "<match></match>") "match" = Ok (Elem "match" ∅ []).
Proof. vm_compute. reflexivity. Qed.

Example test_inspect_data_mismatch :
  inspect_data (b "<match></match>") "mismatch"
  = Raise (ValueError "Unexpected root tag: match, expected: mismatch").
Proof. vm_compute. reflexivity. Qed.

Example test_inspect_data_malformed :
  inspect_data (b "<match/><match>") "malformed" = Raise ParseError.
Proof. vm_compute. reflexivity. Qed.

Example test_inspect_data_empty :
  inspect_data (b EmptyString) "empty" = Raise ParseError.
Proof. vm_compute. reflexivity. Qed.

Example int_of_str_7 : int_of_str "7" = Some 7.
Proof. reflexivity. Qed.

Example int_of_str_padded : int_of_str " -1_000 " = Some (-1000).
Proof. reflexivity. Qed.

Example int_of_str_http_date :
  int_of_str "Wed, 21 Oct 2015 07:28:00 GMT" = None.
Proof. reflexivity. Qed.

Example range_45_by_20 : py_range 0 45 20 = Ok [0; 20; 40].
Proof. reflexivity. Qed.

Example slice_tail : py_slice [1; 2; 3; 4; 5] 4 24 = [5].
Proof. reflexivity. Qed.

Example str_examples : str 0 = "0" /\ str 21 = "21" /\ str (-3) = "-3".
Proof. vm_compute. auto. Qed.

Example thing_query_path_example :
  thing_query_path [13; 822; 9209] = "/thing?id=13,822,9209&stats=1".
Proof. vm_compute. reflexivity. Qed.

(** A 200 at the first attempt: no sleep, and the body as it came. *)
Example get_data_first_attempt :
  get_data_default "/user?name=les_" (start [respond OK (b "<user/>")])
  = (Ok (b "<user/>"),
     mkState [] [EvGet "https://boardgamegeek.com/xmlapi2/user?name=les_" 3]).
Proof. vm_compute. reflexivity. Qed.

(** A timeout, a queued request and a throttled one share the counter. *)
Example get_data_mixed_retries :
  get_data "/q" 3 2 5
    (start [Raised ReadTimeout; respond ACCEPTED []; too_many (Some "7");
            respond OK (b "<late/>")])
  = (Ok [],
     mkState [respond OK (b "<late/>")]
       [EvGet "https://boardgamegeek.com/xmlapi2/q" 3; EvSleep 5;
        EvGet "https://boardgamegeek.com/xmlapi2/q" 3; EvSleep 5;
        EvGet "https://boardgamegeek.com/xmlapi2/q" 3; EvSleep 7]).
Proof. vm_compute. reflexivity. Qed.

(** An HTTP date in [Retry-After] ends the call. *)
Example get_data_http_date :
  fst (get_data_default "/q"
         (start [too_many (Some "Wed, 21 Oct 2015 07:28:00 GMT");
                 respond OK (b "<user/>")]))
  = Raise (ValueError
      "invalid literal for int() with base 10: Wed, 21 Oct 2015 07:28:00 GMT").
Proof. vm_compute. reflexivity. Qed.

(** Forty-five identifiers: three batches, numbered from 1. *)
Example download_thing_data_45 :
  let st := snd (download_thing_data
                   (session := site (fun _ => respond OK (items_page [])))
                   (seqZ 1 45) ["data"] default_batch_size (start tt)) in
  fst <$> writes (trace st)
  = [["data"; "thing"; "batch_1.xml"]; ["data"; "thing"; "batch_2.xml"];
     ["data"; "thing"; "batch_3.xml"]]
  /\ nth 2 (gets (trace st)) EmptyString
     = "https://boardgamegeek.com/xmlapi2/thing?id=41,42,43,44,45&stats=1".
Proof. vm_compute. split; reflexivity. Qed.

(** Two pages of plays and the empty third one. *)
Example download_play_data_three_pages :
  let st := snd (download_play_data (session := plays_site) 3 "les_" ["data"]
                   (start tt)) in
  fst <$> writes (trace st)
  = [["data"; "plays"; "page_1.xml"]; ["data"; "plays"; "page_2.xml"]]
  /\ length (gets (trace st)) = 3%nat.
Proof. vm_compute. split; reflexivity. Qed.

(** The queries of the collection driver; only the first one excludes the
    expansions. *)
Example collection_query_paths :
  collection_query_path "les_" <$> subtypes
  = ["/collection?username=les_&subtype=boardgame&stats=1&version=1&excludesubtype=boardgameexpansion";
     "/collection?username=les_&subtype=boardgameexpansion&stats=1&version=1";
     "/collection?username=les_&subtype=boardgameaccessory&stats=1&version=1"].
Proof. vm_compute. reflexivity. Qed.

(** The timestamp of the sample time, and of a time on the full second. *)
Example timestamp_text_examples :
  timestamp_text sample_time = "2000-01-01T01:02:03.456789Z" +:+ newline
  /\ timestamp_text (mkDatetime 2026 11 4 14 24 0 0)
     = "2026-11-04T14:24:00Z" +:+ newline.
Proof. vm_compute. split; reflexivity. Qed.

(** A whole run against a site that answers every request with an empty
    [items] document: the profile fails validation, so nothing is written,
    not even the timestamp. *)
Example main_stops_at_invalid_profile :
  main (session := site (fun _ => respond OK (items_page [])))
    (clock := sample_clock) 5 (start tt)
  = (Raise (ValueError "Unexpected root tag: items, expected: user"),
     mkState tt
       [EvGet "https://boardgamegeek.com/xmlapi2/user?name=les_&buddies=1&guilds=1" 3]).
Proof. vm_compute. reflexivity. Qed.

(** A whole run: the files in the order in which they are written. *)
Example main_whole_run :
  let run := main (session := whole_site) (clock := sample_clock) 5 (start tt) in
  fst run = Ok tt
  /\ fst <$> writes (trace (snd run))
     = [["data"; "user"; "profile.xml"];
        ["data"; "collection"; "boardgame.xml"];
        ["data"; "collection"; "boardgameexpansion.xml"];
        ["data"; "collection"; "boardgameaccessory.xml"];
        ["data"; "thing"; "batch_1.xml"];
        ["data"; "plays"; "page_1.xml"];
        ["data"; "plays"; "page_2.xml"];
        ["data"; "timestamp.txt"]]
  /\ nth 4 (gets (trace (snd run))) EmptyString
     = "https://boardgamegeek.com/xmlapi2/thing?id=13,822,13,926&stats=1".
Proof. vm_compute. repeat split; reflexivity. Qed.
